(** * check-links: a shallow embedding of the link-checking function

    The development follows [netlify/functions/check-links.js]: URL
    sanitisation and validation, the single-link probe, the redirect-chain
    tracer, the windowed scheduler, the summary and the request handler.

    Conventions.
    - A JavaScript string is a [string]: a sequence of code units below 256.
    - A value decoded from the request body is a [json].
    - The network, the wall clock and the process environment live in a
      [World] that every asynchronous function threads explicitly; the
      probes of one window are run one after the other in slot order, which
      is the order in which [Promise.allSettled] reports them.
    - The WHATWG [URL] class is a platform service and is taken as a
      parameter ([Platform]). *)

From Stdlib Require Import String Ascii ZArith NArith List Lia Bool DecimalString.
From Equations Require Import Equations.
Import ListNotations.
Open Scope string_scope.
Open Scope Z_scope.

Set Implicit Arguments.
Set Warnings "-register-all".

(* ===================================================================== *)
(** ** Strings                                                            *)
(* ===================================================================== *)

(** [String.prototype.startsWith]. *)
Definition startsWith (s pre : string) : bool := String.prefix pre s.

(** [String.prototype.includes]: [needle] occurs somewhere in [hay]. *)
Fixpoint includes (hay needle : string) : bool :=
  String.prefix needle hay ||
  match hay with
  | EmptyString => false
  | String _ rest => includes rest needle
  end.

(** White space and line terminators removed by [String.prototype.trim],
    as far as they are below 256: TAB, LF, VT, FF, CR, SPACE and NBSP. *)
Definition is_js_space (c : ascii) : bool :=
  let n := N_of_ascii c in
  ((9 <=? n) && (n <=? 13) || (n =? 32) || (n =? 160))%N.

Fixpoint trimStart (s : string) : string :=
  match s with
  | EmptyString => EmptyString
  | String c rest => if is_js_space c then trimStart rest else s
  end.

Fixpoint trimEnd (s : string) : string :=
  match s with
  | EmptyString => EmptyString
  | String c rest =>
      match trimEnd rest with
      | EmptyString => if is_js_space c then EmptyString else String c EmptyString
      | kept => String c kept
      end
  end.

Definition trim (s : string) : string := trimEnd (trimStart s).

(** [String.prototype.toLowerCase] on code units below 256: the ASCII
    capitals and the Latin-1 capitals 0xC0..0xDE (0xD7 is the times sign). *)
Definition lower_char (c : ascii) : ascii :=
  let n := N_of_ascii c in
  if ((65 <=? n) && (n <=? 90) || (192 <=? n) && (n <=? 222) && negb (n =? 215))%N
  then ascii_of_N (n + 32) else c.

Fixpoint toLowerCase (s : string) : string :=
  match s with
  | EmptyString => EmptyString
  | String c rest => String (lower_char c) (toLowerCase rest)
  end.

(** A number spliced into a template literal. *)
Definition string_of_Z (z : Z) : string := NilZero.string_of_int (Z.to_int z).

(** [Array.prototype.includes] on strings. *)
Definition array_includes (l : list string) (s : string) : bool :=
  existsb (String.eqb s) l.

(* ===================================================================== *)
(** ** Values                                                             *)
(* ===================================================================== *)

(** What [JSON.parse] yields. Numbers are integers here; an object is the
    list of its own properties, looked up first match first. *)
Inductive json : Type :=
| JNull
| JBool (b : bool)
| JNum (z : Z)
| JStr (s : string)
| JArr (items : list json)
| JObj (props : list (string * json)).

Fixpoint assoc {A : Type} (k : string) (l : list (string * A)) : option A :=
  match l with
  | [] => None
  | (k', v) :: rest => if String.eqb k k' then Some v else assoc k rest
  end.

(** [v.k] for a [v] that is not [null]; [None] is [undefined]. None of the
    keys read by the program is a built-in property of a primitive or of an
    array. *)
Definition prop (v : json) (k : string) : option json :=
  match v with
  | JObj props => assoc k props
  | _ => None
  end.

(** Truthiness. *)
Definition truthy (v : json) : bool :=
  match v with
  | JNull => false
  | JBool b => b
  | JNum z => negb (z =? 0)
  | JStr s => negb (String.eqb s "")
  | JArr _ | JObj _ => true
  end.

Definition truthy_str (s : string) : bool := negb (String.eqb s "").

(** [x || d] where [x] may be [undefined]. *)
Definition js_or (x : option json) (d : json) : json :=
  match x with
  | Some v => if truthy v then v else d
  | None => d
  end.

(** [x !== false]. *)
Definition not_false (x : option json) : bool :=
  match x with
  | Some (JBool false) => false
  | _ => true
  end.

(** A property that holds a value or [null]. *)
Inductive nullable (A : Type) : Type :=
| Null
| Val (a : A).
Arguments Null {A}.
Arguments Val {A} a.

(** A thrown or rejected error object: the properties the program reads. *)
Record JsError : Type := mkError {
  e_name : string;
  e_code : option string;
  e_message : string
}.

(** The [TypeError] raised by reading a property of [null]. *)
Definition nullPropertyError (k : string) : JsError :=
  {| e_name := "TypeError"; e_code := None;
     e_message := "Cannot read properties of null (reading '" ++ k ++ "')" |}.

(** The [TypeError] raised by [new URL] on an unparsable input. *)
Definition invalidUrlError : JsError :=
  {| e_name := "TypeError"; e_code := Some "ERR_INVALID_URL";
     e_message := "Invalid URL" |}.

(* ===================================================================== *)
(** ** The platform: URL parsing                                          *)
(* ===================================================================== *)

(** The fields of a [URL] object that the program reads. *)
Record URL : Type := mkURL {
  href : string;
  protocol : string;
  hostname : string
}.

(** [new URL(input)] and [new URL(input, base)]; [None] when the
    constructor throws. *)
Record Platform : Type := mkPlatform {
  url_parse : string -> option URL;
  url_resolve : string -> string -> option URL
}.

(* ===================================================================== *)
(** ** The world: network, clock, environment                            *)
(* ===================================================================== *)

(** How a request treats redirects: [follow: n] or [redirect: 'manual']. *)
Inductive RedirectMode : Type :=
| Follow (n : nat)
| Manual.

(** The options handed to [fetch]; the method is always HEAD, and request
    headers are not represented. [rq_agent] is the [rejectUnauthorized]
    flag of the https agent, when one is given. *)
Record FetchRequest : Type := mkRequest {
  rq_url : string;
  rq_redirect : RedirectMode;
  rq_timeout : json;
  rq_agent : option bool
}.

(** A response: status, final URL, and the headers [headers.get] reads. *)
Record HttpResponse : Type := mkResponse {
  r_status : Z;
  r_url : string;
  r_headers : list (string * string)
}.

Definition headers_get (r : HttpResponse) (name : string) : nullable string :=
  match assoc name (r_headers r) with
  | Some v => Val v
  | None => Null
  end.

Inductive FetchOutcome : Type :=
| Responded (response : HttpResponse)
| Failed (error : JsError).

(** What the network does with one request: how long it takes, and how it
    ends. *)
Record FetchReply : Type := mkReply {
  latency : Z;
  outcome : FetchOutcome
}.

(** Observable effects, oldest first. *)
Inductive Effect : Type :=
| EvFetch (rq : FetchRequest)
| EvDelay (ms : Z).

(** [net n rq] is the reply to the [n]-th request issued since the world
    began, should that request be [rq]. *)
Record World : Type := mkWorld {
  net : nat -> FetchRequest -> FetchReply;
  reqs : nat;
  clock : Z;
  log : list Effect;
  NODE_ENV : option string
}.

(** Computations that read and change the world. *)
Definition M (A : Type) : Type := World -> A * World.

Definition ret {A : Type} (a : A) : M A := fun w => (a, w).

Definition bind {A B : Type} (m : M A) (k : A -> M B) : M B :=
  fun w => let (a, w') := m w in k a w'.

Declare Scope world_scope.
Delimit Scope world_scope with world.
Notation "x <- m ;; k" := (bind m (fun x => k))
  (at level 61, m at next level, right associativity) : world_scope.
Open Scope world_scope.

(** [Date.now()]. *)
Definition now : M Z := fun w => (clock w, w).

(** [await fetch(url, options)]: the reply is the network's; the request is
    logged, counted, and the clock moves by the reply's latency. *)
Definition fetch (rq : FetchRequest) : M FetchReply :=
  fun w =>
    let reply := net w (reqs w) rq in
    (reply,
     {| net := net w; reqs := S (reqs w); clock := clock w + latency reply;
        log := log w ++ [EvFetch rq]; NODE_ENV := NODE_ENV w |}).

(** [await new Promise(resolve => setTimeout(resolve, ms))]. *)
Definition sleep (ms : Z) : M unit :=
  fun w =>
    (tt,
     {| net := net w; reqs := reqs w; clock := clock w + ms;
        log := log w ++ [EvDelay ms]; NODE_ENV := NODE_ENV w |}).

(* ===================================================================== *)
(** ** Results                                                            *)
(* ===================================================================== *)

Inductive Status : Type := healthy | broken | warning | redirect | error.

Module Hop.
Record t : Type := mk {
  url : string;
  status : Z;
  location : string
}.
End Hop.

(** The three captured response headers. *)
Record Captured : Type := mkCaptured {
  content_type : nullable string;
  server : nullable string;
  last_modified : nullable string
}.

(** The result object of one link. A property an object literal does not
    set is [None]. [timestamp] is the clock reading that [toISOString]
    renders. *)
Module Probe.
Record t : Type := mk {
  url : string;
  status : Status;
  statusCode : json;
  message : string;
  responseTime : Z;
  redirectChain : option (nullable (list Hop.t));
  sslValid : option (nullable bool);
  timestamp : Z;
  headers : option Captured;
  error : option string
}.
End Probe.

(** A settled promise of [checkSingleLink]. *)
Inductive Settled : Type :=
| Fulfilled (value : Probe.t)
| Rejected (reason : JsError).

(* ===================================================================== *)
(** ** Configuration                                                      *)
(* ===================================================================== *)

Module RATE_LIMITS.
Definition maxLinksPerRequest : nat := 50.
Definition timeoutMs : Z := 15000.
Definition maxConcurrency : nat := 8.
End RATE_LIMITS.

Definition BLOCKED_HOSTS : list string :=
  ["localhost"; "127.0.0.1"; "0.0.0.0"; "10."; "192.168."; "172."].

Definition ALLOWED_PROTOCOLS : list string := ["http:"; "https:"].

(* ===================================================================== *)
(** ** generateSummary                                                    *)
(* ===================================================================== *)

(** A JavaScript number that is an integer or [NaN]. *)
Inductive number : Type :=
| Num (z : Z)
| NaN.

Definition num_add (a b : number) : number :=
  match a, b with
  | Num x, Num y => Num (x + y)
  | _, _ => NaN
  end.

(** [ToNumber] of a property that may be missing: [undefined] is [NaN]. *)
Definition to_number (x : option number) : number :=
  match x with
  | Some n => n
  | None => NaN
  end.

(** [x++] stores [ToNumber(x) + 1]. *)
Definition incr (x : option number) : number := num_add (to_number x) (Num 1).

(** [Math.round(a / n)]: the quotient rounded to the nearest integer, ties
    upwards. With [n = 0] the list was empty, [a] is 0, and [0 / 0] is
    [NaN]. The source adds and divides doubles where this divides
    integers. The two agree when the response times are non-negative and
    add up to less than 2^52: the sums are then exact, the quotient is
    correctly rounded, and a quotient that is no half-integer is at least
    [1 / 2n] away from the nearest one, too far to be rounded onto it.
    Beyond that range the source can return another number. *)
Definition round_div (a : Z) (n : nat) : number :=
  match n with
  | O => NaN
  | S _ => Num ((2 * a + Z.of_nat n) / (2 * Z.of_nat n))
  end.

(** The summary object. The literal of line 340 sets every property but
    [error], which exists only once [summary['error']++] has run. *)
Module Summary.
Record t : Type := mk {
  total : nat;
  healthy : number;
  broken : number;
  warning : number;
  redirect : number;
  averageResponseTime : number;
  errors : list (string * string);
  error : option number
}.
End Summary.

(** [summary[status]++]. *)
Definition bump (status : Status) (s : Summary.t) : Summary.t :=
  match status with
  | healthy =>
      Summary.mk (Summary.total s) (incr (Some (Summary.healthy s))) (Summary.broken s)
        (Summary.warning s) (Summary.redirect s) (Summary.averageResponseTime s)
        (Summary.errors s) (Summary.error s)
  | broken =>
      Summary.mk (Summary.total s) (Summary.healthy s) (incr (Some (Summary.broken s)))
        (Summary.warning s) (Summary.redirect s) (Summary.averageResponseTime s)
        (Summary.errors s) (Summary.error s)
  | warning =>
      Summary.mk (Summary.total s) (Summary.healthy s) (Summary.broken s)
        (incr (Some (Summary.warning s))) (Summary.redirect s)
        (Summary.averageResponseTime s) (Summary.errors s) (Summary.error s)
  | redirect =>
      Summary.mk (Summary.total s) (Summary.healthy s) (Summary.broken s)
        (Summary.warning s) (incr (Some (Summary.redirect s)))
        (Summary.averageResponseTime s) (Summary.errors s) (Summary.error s)
  | error =>
      Summary.mk (Summary.total s) (Summary.healthy s) (Summary.broken s)
        (Summary.warning s) (Summary.redirect s) (Summary.averageResponseTime s)
        (Summary.errors s) (Some (incr (Summary.error s)))
  end.

(** [if (result.error) summary.errors.push({url, error})]. *)
Definition push_error (result : Probe.t) (s : Summary.t) : Summary.t :=
  match Probe.error result with
  | Some e =>
      if truthy_str e
      then Summary.mk (Summary.total s) (Summary.healthy s) (Summary.broken s)
             (Summary.warning s) (Summary.redirect s) (Summary.averageResponseTime s)
             (Summary.errors s ++ [(Probe.url result, e)]) (Summary.error s)
      else s
  | None => s
  end.

(** [results.forEach(...)], with the running [totalResponseTime]. *)
Fixpoint tally (results : list Probe.t) (s : Summary.t) (totalResponseTime : Z)
  : Summary.t * Z :=
  match results with
  | [] => (s, totalResponseTime)
  | result :: rest =>
      let s := bump (Probe.status result) s in
      let totalResponseTime := totalResponseTime + Probe.responseTime result in
      tally rest (push_error result s) totalResponseTime
  end.

Definition generateSummary (results : list Probe.t) : Summary.t :=
  let summary :=
    Summary.mk (length results) (Num 0) (Num 0) (Num 0) (Num 0) (Num 0) [] None in
  let (summary, totalResponseTime) := tally results summary 0 in
  Summary.mk (Summary.total summary) (Summary.healthy summary)
    (Summary.broken summary) (Summary.warning summary) (Summary.redirect summary)
    (round_div totalResponseTime (length results))
    (Summary.errors summary) (Summary.error summary).

(** The per-status counters of a summary, added up as JavaScript adds
    them: the four of the literal, and [error] if the object has it. *)
Definition counts_sum (s : Summary.t) : number :=
  let four := num_add (num_add (Summary.healthy s) (Summary.broken s))
                      (num_add (Summary.warning s) (Summary.redirect s)) in
  match Summary.error s with
  | Some e => num_add four e
  | None => four
  end.

(* ===================================================================== *)
(** ** The program                                                        *)
(* ===================================================================== *)

Section CheckLinks.

Variable pf : Platform.

(** *** sanitizeUrl, validateUrl *)

Definition has_http_prefix (url : string) : bool :=
  startsWith url "http://" || startsWith url "https://".

Definition sanitizeUrl (link : json) : nullable string :=
  match link with
  | JStr url =>
      let url := trim url in
      let url := if negb (startsWith url "http://") && negb (startsWith url "https://")
                 then "https://" ++ url else url in
      match url_parse pf url with
      | Some urlObj => Val (href urlObj)
      | None => Null
      end
  | _ => Null
  end.

Definition validateUrl (url : string) : bool :=
  match url_parse pf url with
  | Some urlObj =>
      if negb (array_includes ALLOWED_PROTOCOLS (protocol urlObj)) then false
      else
        let hostname := toLowerCase (hostname urlObj) in
        if existsb (fun blocked => includes hostname blocked) BLOCKED_HOSTS then false
        else true
  | None => false
  end.

(** The [filter] callback of the handler: [link && validateUrl(link)]. *)
Definition keep_link (link : nullable string) : option string :=
  match link with
  | Val url => if truthy_str url && validateUrl url then Some url else None
  | Null => None
  end.

Fixpoint filter_links (links : list (nullable string)) : list string :=
  match links with
  | [] => []
  | link :: rest =>
      match keep_link link with
      | Some url => url :: filter_links rest
      | None => filter_links rest
      end
  end.

(** *** getStatusMessage *)

Definition status_messages : list (Z * string) :=
  [ (400, "Bad Request"); (401, "Unauthorized"); (403, "Forbidden");
    (404, "Not Found"); (429, "Too Many Requests");
    (500, "Internal Server Error"); (502, "Bad Gateway");
    (503, "Service Unavailable"); (504, "Gateway Timeout") ].

Fixpoint lookupZ (k : Z) (l : list (Z * string)) : option string :=
  match l with
  | [] => None
  | (k', v) :: rest => if k =? k' then Some v else lookupZ k rest
  end.

Definition getStatusMessage (statusCode : Z) : string :=
  match lookupZ statusCode status_messages with
  | Some m => if truthy_str m then m else "HTTP " ++ string_of_Z statusCode
  | None => "HTTP " ++ string_of_Z statusCode
  end.

(** *** getRedirectChain *)

(** The body of the [try] block: the [while] loop over [maxRedirects],
    with the [chain] array it pushes to. The second component is the
    exception that left the block, if one did; the hops pushed before it
    stay in the array. Of the options on which building the request
    throws, [null] is represented; the tracer is only ever called by the
    probe, which has built its own request from the same options
    before. *)
Fixpoint redirect_loop (maxRedirects : nat) (currentUrl : string)
    (chain : list Hop.t) (options : json) : M (list Hop.t * option JsError) :=
  match maxRedirects with
  | O => ret (chain, None)
  | S remaining =>
      match options with
      | JNull => ret (chain, Some (nullPropertyError "userAgent"))
      | _ =>
          reply <- fetch {| rq_url := currentUrl; rq_redirect := Manual;
                            rq_timeout := JNum 5000; rq_agent := None |} ;;
          match outcome reply with
          | Failed err => ret (chain, Some err)
          | Responded response =>
              if (r_status response >=? 300) && (r_status response <? 400) then
                match headers_get response "location" with
                | Val location =>
                    if truthy_str location then
                      let chain := (chain ++ [Hop.mk currentUrl (r_status response) location])%list in
                      match url_resolve pf location currentUrl with
                      | Some next => redirect_loop remaining (href next) chain options
                      | None => ret (chain, Some invalidUrlError)
                      end
                    else ret (chain, None)
                | Null => ret (chain, None)
                end
              else ret (chain, None)
          end
      end
  end.

Definition chain_or_null (chain : list Hop.t) : nullable (list Hop.t) :=
  match chain with
  | [] => Null
  | _ :: _ => Val chain
  end.

Definition getRedirectChain (originalUrl : string) (options : json)
  : M (nullable (list Hop.t)) :=
  r <- redirect_loop 5 originalUrl [] options ;;
  match r with
  | (chain, Some _) => ret (chain_or_null chain)
  | (chain, None) => ret (chain_or_null chain)
  end.

(** *** checkSingleLink *)

(** The classification of a response, lines 206-218. *)
Definition classify (status responseTime : Z) : Status * string :=
  if status >=? 400 then (broken, getStatusMessage status)
  else if responseTime >? 5000 then (warning, "Slow Response")
  else if (status >=? 300) && (status <? 400) then (redirect, "Redirect")
  else (healthy, "OK").

Definition code_is (err : JsError) (c : string) : bool :=
  match e_code err with
  | Some c' => String.eqb c' c
  | None => false
  end.

(** The message of a failed request, lines 246-256. *)
Definition failure_message (err : JsError) : string :=
  if code_is err "ENOTFOUND" then "DNS Resolution Failed"
  else if code_is err "ECONNREFUSED" then "Connection Refused"
  else if code_is err "ETIMEDOUT" || String.eqb (e_name err) "FetchError"
       then "Request Timeout"
  else if code_is err "CERT_HAS_EXPIRED" then "SSL Certificate Expired"
  else "Connection Failed".

(** [error.code || 'ERROR']. *)
Definition failure_code (err : JsError) : json :=
  match e_code err with
  | Some c => if truthy_str c then JStr c else JStr "ERROR"
  | None => JStr "ERROR"
  end.

(** The options of the probe's request, lines 186-199. *)
Definition fetchOptions (url : string) (options : json) : FetchRequest :=
  {| rq_url := url;
     rq_redirect := Follow (if not_false (prop options "followRedirects")
                            then 10%nat else 0%nat);
     rq_timeout := js_or (prop options "timeout") (JNum RATE_LIMITS.timeoutMs);
     rq_agent := if startsWith url "https:"
                 then Some (not_false (prop options "checkSSL"))
                 else None |}.

(** Lines 202-269: the request, and the result object of either path.
    [startTime] is the reading taken on line 183. *)
Definition request_and_classify (url : string) (options : json) (startTime : Z)
  : M Settled :=
  reply <- fetch (fetchOptions url options) ;;
  match outcome reply with
  | Responded response =>
      t <- now ;;
      let responseTime := t - startTime in
      let (status, message) := classify (r_status response) responseTime in
      redirectChain <-
        (if not_false (prop options "followRedirects")
            && negb (String.eqb (r_url response) url)
         then getRedirectChain url options
         else ret Null) ;;
      stamp <- now ;;
      ret (Fulfilled
             {| Probe.url := url;
                Probe.status := status;
                Probe.statusCode := JNum (r_status response);
                Probe.message := message;
                Probe.responseTime := responseTime;
                Probe.redirectChain := Some redirectChain;
                Probe.sslValid :=
                  Some (if startsWith url "https:"
                           && not_false (prop options "checkSSL")
                        then Val true else Null);
                Probe.timestamp := stamp;
                Probe.headers :=
                  Some {| content_type := headers_get response "content-type";
                          server := headers_get response "server";
                          last_modified := headers_get response "last-modified" |};
                Probe.error := None |})
  | Failed err =>
      t <- now ;;
      let responseTime := t - startTime in
      stamp <- now ;;
      ret (Fulfilled
             {| Probe.url := url;
                Probe.status := broken;
                Probe.statusCode := failure_code err;
                Probe.message := failure_message err;
                Probe.responseTime := responseTime;
                Probe.redirectChain := Some Null;
                Probe.sslValid := Some Null;
                Probe.timestamp := stamp;
                Probe.headers := None;
                Probe.error := Some (e_message err) |})
  end.

(** [userAgents[type]] on line 320 first turns [type] into a property
    key, and that conversion throws a [TypeError] for some values: an
    object with a [toString] property of its own (decoded from JSON, that
    property is no function, and the inherited [valueOf] returns the
    object), and an array that holds such a value, since an array is
    converted by joining its elements. Every other value converts. *)
Fixpoint toPropertyKey_throws (v : json) : bool :=
  match v with
  | JNull | JBool _ | JNum _ | JStr _ => false
  | JArr items =>
      (fix any (l : list json) : bool :=
         match l with
         | [] => false
         | item :: rest => toPropertyKey_throws item || any rest
         end) items
  | JObj props =>
      match assoc "toString" props with
      | Some _ => true
      | None => false
      end
  end.

(** [getUserAgent(type)], lines 312-321, as far as the probe depends on
    it: whether the call throws. The header text it returns is not
    represented. An [undefined] type is the key ["undefined"]. *)
Definition getUserAgent_throws (type : option json) : bool :=
  match type with
  | Some v => toPropertyKey_throws v
  | None => false
  end.

(** The [TypeError] of a failed conversion to a primitive. *)
Definition primitiveError : JsError :=
  {| e_name := "TypeError"; e_code := None;
     e_message := "Cannot convert object to primitive value" |}.

(** What lines 184-199 throw before the [try] block is entered: reading
    [options.timeout] throws when [options] is [null], and building the
    request headers throws when [getUserAgent(options.userAgent)] does. *)
Definition early_throw (options : json) : option JsError :=
  match options with
  | JNull => Some (nullPropertyError "timeout")
  | _ => if getUserAgent_throws (prop options "userAgent")
         then Some primitiveError
         else None
  end.

(** An exception of lines 184-199 rejects the promise before any request;
    past them, every path ends in a result object. *)
Definition checkSingleLink (url : string) (options : json) : M Settled :=
  startTime <- now ;;
  match early_throw options with
  | Some err => ret (Rejected err)
  | None => request_and_classify url options startTime
  end.

(** *** processLinksWithConcurrency *)

(** [Array.prototype.slice(from, to)] for [from <= to]. *)
Definition slice {A : Type} (l : list A) (from to : nat) : list A :=
  firstn (to - from) (skipn from l).

(** The first loop: [for (let i = 0; i < links.length; i += maxConcurrency)]
    pushing [links.slice(i, i + maxConcurrency)]. *)
Equations? make_batches (links : list string) (i : nat) : list (list string)
  by wf (length links - i)%nat lt :=
  make_batches links i with lt_dec i (length links) => {
    | left _ => slice links i (i + RATE_LIMITS.maxConcurrency)
                :: make_batches links (i + RATE_LIMITS.maxConcurrency);
    | right _ => [] }.
Proof. unfold RATE_LIMITS.maxConcurrency. lia. Qed.

(** [reason?.message || 'Unknown error']. *)
Definition reason_message (reason : JsError) : string :=
  if truthy_str (e_message reason) then e_message reason else "Unknown error".

(** The object pushed for a rejected promise, lines 161-169. *)
Definition processing_error (url : string) (stamp : Z) (reason : JsError) : Probe.t :=
  {| Probe.url := url;
     Probe.status := error;
     Probe.statusCode := JStr "PROCESSING_ERROR";
     Probe.message := "Failed to process";
     Probe.responseTime := 0;
     Probe.redirectChain := None;
     Probe.sslValid := None;
     Probe.timestamp := stamp;
     Probe.headers := None;
     Probe.error := Some (reason_message reason) |}.

(** [batchResults.forEach((result, index) => ...)], pushing to [results];
    [batch[index]] outside the batch would be [undefined] and reads as the
    empty string here. *)
Fixpoint push_settled (batch : list string) (index : nat)
    (batchResults : list Settled) (stamp : Z) (results : list Probe.t)
  : list Probe.t :=
  match batchResults with
  | [] => results
  | result :: rest =>
      let pushed :=
        match result with
        | Fulfilled value => value
        | Rejected reason => processing_error (nth index batch "") stamp reason
        end in
      push_settled batch (S index) rest stamp (results ++ [pushed])
  end.

Section Scheduler.

(** The probe a window starts for each of its URLs. *)
Variable probe : string -> json -> M Settled.

(** [await Promise.allSettled(batch.map(url => probe(url, options)))]:
    one settled promise per URL, in the order of the batch. *)
Fixpoint allSettled (batch : list string) (options : json) : M (list Settled) :=
  match batch with
  | [] => ret []
  | url :: rest =>
      first <- probe url options ;;
      others <- allSettled rest options ;;
      ret (first :: others)
  end.

(** The second loop, [for (const batch of batches)]; [nbatches] is
    [batches.length]. *)
Fixpoint run_batches (pending : list (list string)) (nbatches : nat)
    (options : json) (results : list Probe.t) : M (list Probe.t) :=
  match pending with
  | [] => ret results
  | batch :: rest =>
      batchResults <- allSettled batch options ;;
      stamp <- now ;;
      let results := push_settled batch 0 batchResults stamp results in
      _ <- (if (1 <? nbatches)%nat then sleep 200 else ret tt) ;;
      run_batches rest nbatches options results
  end.

Definition schedule (links : list string) (options : json) : M (list Probe.t) :=
  let batches := make_batches links 0 in
  run_batches batches (length batches) options [].

End Scheduler.

Definition processLinksWithConcurrency (links : list string) (options : json)
  : M (list Probe.t) :=
  schedule checkSingleLink links options.

(** *** handler *)

(** What [JSON.parse(event.body)] does: it throws, or yields a value. *)
Inductive Decoded : Type :=
| ParseThrows (err : JsError)
| Parsed (v : json).

Record LambdaEvent : Type := mkEvent {
  httpMethod : string;
  body : Decoded
}.

(** The object handed to [JSON.stringify] for the response body. An error
    body has its [error] text and at most one further property. *)
Inductive ResponseBody : Type :=
| EmptyBody
| ErrorBody (err : string) (more : option (string * string))
| ReportBody (results : list Probe.t) (summary : Summary.t)
             (processed : nat) (stamp : Z).

(** The handler's return value; the CORS headers are the same constant on
    every path and are left out. *)
Record LambdaResponse : Type := mkLambdaResponse {
  statusCode : Z;
  responseBody : ResponseBody
}.

(** The [catch] block of the handler. *)
Definition internal_error (err : JsError) : M LambdaResponse :=
  fun w =>
    let message :=
      match NODE_ENV w with
      | Some env => if String.eqb env "development" then e_message err
                    else "Processing failed"
      | None => "Processing failed"
      end in
    ({| statusCode := 500;
        responseBody := ErrorBody "Internal server error" (Some ("message", message)) |},
     w).

(** The [TypeError] of destructuring [null]. *)
Definition destructureError : JsError :=
  {| e_name := "TypeError"; e_code := None;
     e_message := "Cannot destructure property 'links' of 'JSON.parse(...)' as it is null." |}.

Definition handler (event : LambdaEvent) : M LambdaResponse :=
  if String.eqb (httpMethod event) "OPTIONS" then
    ret {| statusCode := 200; responseBody := EmptyBody |}
  else if negb (String.eqb (httpMethod event) "POST") then
    ret {| statusCode := 405; responseBody := ErrorBody "Method not allowed" None |}
  else
    match body event with
    | ParseThrows err => internal_error err
    | Parsed JNull => internal_error destructureError
    | Parsed request =>
        let options := match prop request "options" with
                       | Some o => o
                       | None => JObj []
                       end in
        match prop request "links" with
        | Some (JArr links) =>
            if (length links =? 0)%nat then
              ret {| statusCode := 400;
                     responseBody := ErrorBody "Invalid links array" None |}
            else if (RATE_LIMITS.maxLinksPerRequest <? length links)%nat then
              ret {| statusCode := 429;
                     responseBody :=
                       ErrorBody ("Maximum "
                                  ++ string_of_Z (Z.of_nat RATE_LIMITS.maxLinksPerRequest)
                                  ++ " links per request")
                                 (Some ("upgrade", "Contact support for enterprise limits")) |}
            else
              let sanitizedLinks := filter_links (map sanitizeUrl links) in
              if (length sanitizedLinks =? 0)%nat then
                ret {| statusCode := 400;
                       responseBody := ErrorBody "No valid URLs provided" None |}
              else
                results <- processLinksWithConcurrency sanitizedLinks options ;;
                let summary := generateSummary results in
                stamp <- now ;;
                ret {| statusCode := 200;
                       responseBody :=
                         ReportBody results summary (length results) stamp |}
        | _ =>
            ret {| statusCode := 400;
                   responseBody := ErrorBody "Invalid links array" None |}
        end
    end.

End CheckLinks.

(* ===================================================================== *)
(** ** Vocabulary of the statements                                       *)
(* ===================================================================== *)

(** The ways a batch request is turned away, each with the status code and
    the error text of the answer. *)
Inductive Rejects (pf : Platform) : Decoded -> Z -> string -> Prop :=
| rej_unparsable : forall err,
    Rejects pf (ParseThrows err) 500 "Internal server error"
| rej_null :
    Rejects pf (Parsed JNull) 500 "Internal server error"
| rej_not_array : forall request,
    request <> JNull ->
    (forall links, prop request "links" <> Some (JArr links)) ->
    Rejects pf (Parsed request) 400 "Invalid links array"
| rej_empty : forall request,
    prop request "links" = Some (JArr []) ->
    Rejects pf (Parsed request) 400 "Invalid links array"
| rej_oversized : forall request links,
    prop request "links" = Some (JArr links) ->
    (50 < length links)%nat ->
    Rejects pf (Parsed request) 429 "Maximum 50 links per request"
| rej_no_valid : forall request links,
    prop request "links" = Some (JArr links) ->
    (0 < length links <= 50)%nat ->
    filter_links pf (map (sanitizeUrl pf) links) = [] ->
    Rejects pf (Parsed request) 400 "No valid URLs provided".

(** How many results carry a status. *)
Fixpoint count_status (st : Status) (results : list Probe.t) : nat :=
  match results with
  | [] => O
  | r :: rest =>
      match st, Probe.status r with
      | healthy, healthy | broken, broken | warning, warning
      | redirect, redirect | error, error => S (count_status st rest)
      | _, _ => count_status st rest
      end
  end.

(** The [error] property after the loop: untouched when no result has
    status [error], [NaN] as soon as one has. *)
Definition error_after (before : option number) (results : list Probe.t)
  : option number :=
  match count_status error results with
  | O => before
  | S _ => Some NaN
  end.

(** What the scheduler pushes for a settled promise of the probe of
    [url]. *)
Definition settle (url : string) (stamp : Z) (s : Settled) : Probe.t :=
  match s with
  | Fulfilled value => value
  | Rejected reason => processing_error url stamp reason
  end.

(** A result that stands for the probe of [url]: the value the probe
    fulfilled with in some world, or the stand-in pushed for its
    rejection. *)
Definition slot_of (probe : string -> json -> M Settled) (options : json)
    (url : string) (result : Probe.t) : Prop :=
  exists w1 stamp, result = settle url stamp (fst (probe url options w1)).

(** How many pacing delays a log records. *)
Fixpoint delays (l : list Effect) : nat :=
  match l with
  | [] => O
  | EvDelay _ :: rest => S (delays rest)
  | EvFetch _ :: rest => delays rest
  end.

(** The requests a log records, oldest first. *)
Fixpoint fetched (l : list Effect) : list string :=
  match l with
  | [] => []
  | EvFetch rq :: rest => rq_url rq :: fetched rest
  | EvDelay _ :: rest => fetched rest
  end.

(** What the program needs of the platform's URL class: an input with an
    http or https prefix that parses is serialised to a string without
    surrounding white space, with such a prefix again, that parses to the
    same serialisation. *)
Definition normalising (pf : Platform) : Prop :=
  forall (input : string) (u : URL),
    url_parse pf input = Some u ->
    has_http_prefix input = true ->
    trim (href u) = href u
    /\ has_http_prefix (href u) = true
    /\ exists u', url_parse pf (href u) = Some u' /\ href u' = href u.

(** The reason phrases of the status codes that have one. *)
Definition reason_phrase (code : Z) : option string :=
  match code with
  | 400 => Some "Bad Request"
  | 401 => Some "Unauthorized"
  | 403 => Some "Forbidden"
  | 404 => Some "Not Found"
  | 429 => Some "Too Many Requests"
  | 500 => Some "Internal Server Error"
  | 502 => Some "Bad Gateway"
  | 503 => Some "Service Unavailable"
  | 504 => Some "Gateway Timeout"
  | _ => None
  end.


(** The links a log shows as probed: the URLs of the requests issued with
    [follow], which only [checkSingleLink] issues; the tracer's requests
    are [redirect: 'manual']. *)
Fixpoint probed (l : list Effect) : list string :=
  match l with
  | [] => []
  | EvFetch rq :: rest =>
      match rq_redirect rq with
      | Follow _ => rq_url rq :: probed rest
      | Manual => probed rest
      end
  | EvDelay _ :: rest => probed rest
  end.

(** A chain that starts at [start] and whose every hop is a redirect with
    a location, the next hop starting where the platform resolves that
    location against the hop's own URL. *)
Fixpoint chain_linked (pf : Platform) (start : string) (chain : list Hop.t) : Prop :=
  match chain with
  | [] => True
  | hop :: rest =>
      Hop.url hop = start
      /\ 300 <= Hop.status hop < 400
      /\ Hop.location hop <> ""
      /\ (rest = []
          \/ exists next, url_resolve pf (Hop.location hop) (Hop.url hop) = Some next
                          /\ chain_linked pf (href next) rest)
  end.

(** The sum of the response times of a list of results. *)
Fixpoint sum_response_time (results : list Probe.t) : Z :=
  match results with
  | [] => 0
  | r :: rest => Probe.responseTime r + sum_response_time rest
  end.

(** The results that carry a non-empty error text, as [url] and text. *)
Fixpoint error_entries (results : list Probe.t) : list (string * string) :=
  match results with
  | [] => []
  | r :: rest =>
      match Probe.error r with
      | Some e => if truthy_str e then (Probe.url r, e) :: error_entries rest
                  else error_entries rest
      | None => error_entries rest
      end
  end.

(** The answer to a batch that reaches the scheduler, lines 77-91. *)
Definition report (pf : Platform) (sanitizedLinks : list string) (options : json)
    (w : World) : LambdaResponse * World :=
  let (results, w1) := processLinksWithConcurrency pf sanitizedLinks options w in
  ({| statusCode := 200;
      responseBody :=
        ReportBody results (generateSummary results) (length results) (clock w1) |},
   w1).

(** An answer that is not a report: an empty 200, or an error with one of
    the four error codes. *)
Definition refusal (r : LambdaResponse) : Prop :=
  match responseBody r with
  | EmptyBody => statusCode r = 200
  | ErrorBody _ _ => In (statusCode r) [400; 405; 429; 500]
  | ReportBody _ _ _ _ => False
  end.

(* ===================================================================== *)
(** ** The page script: the guard of checkLinks                           *)
(* ===================================================================== *)

(** [frontend_api_integration.js], [checkLinks], lines 2-21: what happens
    between the click and the request. The rest of the function drives the
    page and the progress timers and is not modelled. *)
Module Frontend.

(** How the guard ends: it returns at once, it shows an error message and
    returns, or it goes on to post [links]. *)
Inductive Guard : Type :=
| Busy
| Message (text : string)
| Submit (links : list string).

(** [String.prototype.split('\n')]. *)
Fixpoint split_lines (s : string) : list string :=
  match s with
  | EmptyString => [EmptyString]
  | String c rest =>
      if Ascii.eqb c "010" then EmptyString :: split_lines rest
      else match split_lines rest with
           | line :: lines => String c line :: lines
           | [] => [String c EmptyString]
           end
  end.

(** The [filter] callback [link => link.trim()]. *)
Definition nonblank (link : string) : bool := truthy_str (trim link).

Definition checkLinks (isChecking : bool) (value : string) : Guard :=
  if isChecking then Busy
  else
    let linksText := trim value in
    if negb (truthy_str linksText) then Message "Please enter some links to check!"
    else
      let links := filter nonblank (split_lines linksText) in
      if (length links =? 0)%nat then Message "Please enter valid links!"
      else if (50 <? length links)%nat then
        Message "Free version limited to 50 links. Upgrade to Pro for unlimited checking!"
      else Submit links.

(** The body of the POST: [JSON.stringify({links, options})] as the
    handler's [JSON.parse] reads it back. *)
Definition request_body (links : list string) (options : json) : json :=
  JObj [("links", JArr (map JStr links)); ("options", options)].

End Frontend.

(* ===================================================================== *)
(** ** Sample platform, networks and inputs                               *)
(* ===================================================================== *)

Module Sample.

Fixpoint has_space (s : string) : bool :=
  match s with
  | EmptyString => false
  | String c rest => is_js_space c || has_space rest
  end.

Fixpoint drop (n : nat) (s : string) : string :=
  match n, s with
  | S n', String _ rest => drop n' rest
  | _, _ => s
  end.

Fixpoint before_slash (s : string) : string :=
  match s with
  | EmptyString => EmptyString
  | String c rest => if Ascii.eqb c "/" then EmptyString
                     else String c (before_slash rest)
  end.

(** A small URL parser: an http or https scheme, a non-empty remainder
    without white space, and a final slash added when the remainder has
    none. *)
Definition parse (s : string) : option URL :=
  let scheme := if startsWith s "http://" then Some "http:"
                else if startsWith s "https://" then Some "https:"
                else None in
  match scheme with
  | Some proto =>
      let rest := drop (String.length proto + 2) s in
      if String.eqb rest "" || has_space s then None
      else Some {| href := if includes rest "/" then s else s ++ "/";
                   protocol := proto;
                   hostname := before_slash rest |}
  | None => None
  end.

(** Resolution of a location that is itself absolute. *)
Definition platform : Platform :=
  {| url_parse := parse; url_resolve := fun location _ => parse location |}.

Definition ok_response (url : string) : HttpResponse :=
  {| r_status := 200; r_url := url; r_headers := [("server", "nginx")] |}.

(** Every request is answered 200 from the requested URL in 120ms. *)
Definition net_ok : nat -> FetchRequest -> FetchReply :=
  fun _ rq => {| latency := 120; outcome := Responded (ok_response (rq_url rq)) |}.

(** Every request fails with the given error after 30ms. *)
Definition net_fail (err : JsError) : nat -> FetchRequest -> FetchReply :=
  fun _ _ => {| latency := 30; outcome := Failed err |}.

(** The probe's followed request ends at another URL; walked by hand,
    the start redirects once (301) and the target answers 200. *)
Definition net_moved : nat -> FetchRequest -> FetchReply :=
  fun _ rq =>
    match rq_redirect rq with
    | Follow _ =>
        {| latency := 200;
           outcome := Responded (ok_response "https://new.example.com/") |}
    | Manual =>
        if String.eqb (rq_url rq) "https://old.example.com/" then
          {| latency := 80;
             outcome := Responded
               {| r_status := 301; r_url := rq_url rq;
                  r_headers := [("location", "https://new.example.com/")] |} |}
        else {| latency := 80; outcome := Responded (ok_response (rq_url rq)) |}
    end.

(** Every hand-walked request redirects to the same place: a loop. *)
Definition net_loop : nat -> FetchRequest -> FetchReply :=
  fun _ rq =>
    {| latency := 10;
       outcome := Responded
         {| r_status := 302; r_url := rq_url rq;
            r_headers := [("location", "https://loop.example.com/")] |} |}.

Definition world (n : nat -> FetchRequest -> FetchReply) : World :=
  {| net := n; reqs := 0; clock := 1000; log := []; NODE_ENV := None |}.

(** What node-fetch raises when the TLS handshake meets an expired
    certificate: a [FetchError] carrying the system error's code. *)
Definition expired_certificate : JsError :=
  {| e_name := "FetchError"; e_code := Some "CERT_HAS_EXPIRED";
     e_message := "request to https://expired.example.com/ failed, reason: certificate has expired" |}.

(** A connection reset, as node-fetch reports it. *)
Definition connection_reset : JsError :=
  {| e_name := "FetchError"; e_code := Some "ECONNRESET";
     e_message := "request to https://example.com/ failed, reason: read ECONNRESET" |}.

Definition dns_failure : JsError :=
  {| e_name := "FetchError"; e_code := Some "ENOTFOUND";
     e_message := "request to https://nowhere.example/ failed, reason: getaddrinfo ENOTFOUND nowhere.example" |}.

(** Nine validated links: two windows. *)
Definition nine_links : list string :=
  [ "https://a1.example.com/"; "https://a2.example.com/";
    "https://a3.example.com/"; "https://a4.example.com/";
    "https://a5.example.com/"; "https://a6.example.com/";
    "https://a7.example.com/"; "https://a8.example.com/";
    "https://a9.example.com/" ].

(** A request body [{"links": [...], "options": ...}]. *)
Definition request (links : list json) (options : json) : json :=
  JObj [("links", JArr links); ("options", options)].

Definition post (v : json) : LambdaEvent :=
  {| httpMethod := "POST"; body := Parsed v |}.

(** Sixty raw links, none of them a URL. *)
Definition sixty_links : list json := repeat (JStr "not a url") 60.

(** A healthy result with a given response time. *)
Definition timed (ms : Z) : Probe.t :=
  {| Probe.url := "https://example.com/";
     Probe.status := healthy;
     Probe.statusCode := JNum 200;
     Probe.message := "OK";
     Probe.responseTime := ms;
     Probe.redirectChain := Some Null;
     Probe.sslValid := Some (Val true);
     Probe.timestamp := 0;
     Probe.headers := None;
     Probe.error := None |}.

(** Options whose [userAgent] has no property key. *)
Definition keyless_agent : json :=
  JObj [("userAgent", JObj [("toString", JNum 1)])].

(** What a visitor typed: two links, a blank line between them, and
    spaces around the second. *)
Definition typed_text : string :=
  "example.com" ++ String "010" (String "010" "  http://10.0.0.5/  ").

(** A probe that rejects for one link and is [checkSingleLink] for the
    others. *)
Definition flaky_probe (faulty : string) (url : string) (options : json)
  : M Settled :=
  if String.eqb url faulty
  then ret (Rejected (mkError "Error" None "socket hang up"))
  else checkSingleLink platform url options.

End Sample.


(* ===================================================================== *)
(** ** Properties of the summary                                          *)
(* ===================================================================== *)

Lemma count_status_total (results : list Probe.t) :
  (count_status healthy results + count_status broken results
   + count_status warning results + count_status redirect results
   + count_status error results = length results)%nat.
Proof.
  induction results as [|r rest IH]; simpl; [reflexivity|].
  destruct (Probe.status r); lia.
Qed.

Lemma push_error_counters (r : Probe.t) (s : Summary.t) :
  Summary.total (push_error r s) = Summary.total s
  /\ Summary.healthy (push_error r s) = Summary.healthy s
  /\ Summary.broken (push_error r s) = Summary.broken s
  /\ Summary.warning (push_error r s) = Summary.warning s
  /\ Summary.redirect (push_error r s) = Summary.redirect s
  /\ Summary.error (push_error r s) = Summary.error s.
Proof.
  unfold push_error. destruct (Probe.error r) as [e|]; [destruct (truthy_str e)|];
    simpl; repeat split; reflexivity.
Qed.

Lemma tally_counters (results : list Probe.t) :
  forall (s : Summary.t) (t : Z) (h b w r : Z),
    Summary.healthy s = Num h -> Summary.broken s = Num b ->
    Summary.warning s = Num w -> Summary.redirect s = Num r ->
    (Summary.error s = None \/ Summary.error s = Some NaN) ->
    let s' := fst (tally results s t) in
    Summary.total s' = Summary.total s
    /\ Summary.healthy s' = Num (h + Z.of_nat (count_status healthy results))
    /\ Summary.broken s' = Num (b + Z.of_nat (count_status broken results))
    /\ Summary.warning s' = Num (w + Z.of_nat (count_status warning results))
    /\ Summary.redirect s' = Num (r + Z.of_nat (count_status redirect results))
    /\ Summary.error s' = error_after (Summary.error s) results.
Proof.
  induction results as [|x rest IH]; intros s t h b w r Hh Hb Hw Hr He.
  - simpl. unfold error_after. simpl. rewrite Hh, Hb, Hw, Hr, !Z.add_0_r. tauto.
  - cbn [tally]. cbv zeta.
    destruct (push_error_counters x (bump (Probe.status x) s))
      as (Pt & Ph & Pb & Pw & Pr & Pe).
    assert (Hnan : incr (Summary.error s) = NaN).
    { destruct He as [He | He]; rewrite He; reflexivity. }
    unfold error_after.
    destruct (Probe.status x) eqn:St; cbn [count_status]; rewrite ?St.
    + destruct (IH (push_error x (bump healthy s))
                   (t + Probe.responseTime x) (h + 1) b w r)
        as (A & B & C & D & E & F);
        [ rewrite Ph; simpl; rewrite Hh; reflexivity
        | rewrite Pb; exact Hb | rewrite Pw; exact Hw | rewrite Pr; exact Hr
        | rewrite Pe; exact He | ].
      rewrite A, B, C, D, E, F, Pt, Pe. unfold error_after. simpl.
      repeat split; try reflexivity. f_equal. lia.
    + destruct (IH (push_error x (bump broken s))
                   (t + Probe.responseTime x) h (b + 1) w r)
        as (A & B & C & D & E & F);
        [ rewrite Ph; exact Hh
        | rewrite Pb; simpl; rewrite Hb; reflexivity
        | rewrite Pw; exact Hw | rewrite Pr; exact Hr
        | rewrite Pe; exact He | ].
      rewrite A, B, C, D, E, F, Pt, Pe. unfold error_after. simpl.
      repeat split; try reflexivity. f_equal. lia.
    + destruct (IH (push_error x (bump warning s))
                   (t + Probe.responseTime x) h b (w + 1) r)
        as (A & B & C & D & E & F);
        [ rewrite Ph; exact Hh | rewrite Pb; exact Hb
        | rewrite Pw; simpl; rewrite Hw; reflexivity
        | rewrite Pr; exact Hr | rewrite Pe; exact He | ].
      rewrite A, B, C, D, E, F, Pt, Pe. unfold error_after. simpl.
      repeat split; try reflexivity. f_equal. lia.
    + destruct (IH (push_error x (bump redirect s))
                   (t + Probe.responseTime x) h b w (r + 1))
        as (A & B & C & D & E & F);
        [ rewrite Ph; exact Hh | rewrite Pb; exact Hb | rewrite Pw; exact Hw
        | rewrite Pr; simpl; rewrite Hr; reflexivity
        | rewrite Pe; exact He | ].
      rewrite A, B, C, D, E, F, Pt, Pe. unfold error_after. simpl.
      repeat split; try reflexivity. f_equal. lia.
    + destruct (IH (push_error x (bump error s))
                   (t + Probe.responseTime x) h b w r)
        as (A & B & C & D & E & F);
        [ rewrite Ph; exact Hh | rewrite Pb; exact Hb | rewrite Pw; exact Hw
        | rewrite Pr; exact Hr
        | rewrite Pe; simpl; rewrite Hnan; right; reflexivity | ].
      rewrite A, B, C, D, E, F, Pt, Pe. unfold error_after. simpl.
      rewrite Hnan.
      repeat split; try reflexivity.
      destruct (count_status error rest); reflexivity.
Qed.

(** The counters of [generateSummary], in closed form. *)
Lemma generateSummary_counters (results : list Probe.t) :
  let s := generateSummary results in
  Summary.total s = length results
  /\ Summary.healthy s = Num (Z.of_nat (count_status healthy results))
  /\ Summary.broken s = Num (Z.of_nat (count_status broken results))
  /\ Summary.warning s = Num (Z.of_nat (count_status warning results))
  /\ Summary.redirect s = Num (Z.of_nat (count_status redirect results))
  /\ Summary.error s = error_after None results.
Proof.
  unfold generateSummary.
  pose proof (@tally_counters results
                (Summary.mk (length results) (Num 0) (Num 0) (Num 0) (Num 0) (Num 0) [] None)
                0 0 0 0 0 eq_refl eq_refl eq_refl eq_refl (or_introl eq_refl)) as H.
  destruct (tally results _ 0) as [s' t']. simpl in *. exact H.
Qed.

(** Without a result of status [error], the counters add up to [total]. *)
Lemma generateSummary_counts_without_error (results : list Probe.t) :
  count_status error results = O ->
  counts_sum (generateSummary results)
  = Num (Z.of_nat (Summary.total (generateSummary results))).
Proof.
  intros He.
  destruct (generateSummary_counters results) as (T & H & B & W & R & E).
  unfold counts_sum. rewrite T, H, B, W, R, E. unfold error_after. rewrite He.
  simpl. f_equal. pose proof (count_status_total results). lia.
Qed.

(** With one, the sum is [NaN], and the four counters of the literal miss
    the results of status [error]. *)
Lemma generateSummary_counts_with_error (results : list Probe.t) :
  count_status error results <> O ->
  counts_sum (generateSummary results) = NaN
  /\ Summary.error (generateSummary results) = Some NaN.
Proof.
  intros He.
  destruct (generateSummary_counters results) as (T & H & B & W & R & E).
  unfold counts_sum. rewrite H, B, W, R, E. unfold error_after.
  destruct (count_status error results); [congruence|]. split; reflexivity.
Qed.

(** C1, at the input [[r]] where [r] is the scheduler's result for a
    rejected probe: [total] is 1, yet no counter of the literal counts the
    result, [summary['error']++] has left [NaN] in a new [error] property,
    and the per-status counters do not add up to [total]. *)
Theorem generateSummary_error_status_unbalanced :
  let r := processing_error "https://example.com/" 1000 (nullPropertyError "timeout") in
  let s := generateSummary [r] in
  Summary.total s = 1%nat
  /\ num_add (num_add (Summary.healthy s) (Summary.broken s))
             (num_add (Summary.warning s) (Summary.redirect s)) = Num 0
  /\ Summary.error s = Some NaN
  /\ counts_sum s = NaN
  /\ counts_sum s <> Num (Z.of_nat (Summary.total s)).
Proof.
  cbv zeta. repeat split; try reflexivity. vm_compute. discriminate.
Qed.

(* ===================================================================== *)
(** ** Properties of the probe and of the tracer                          *)
(* ===================================================================== *)

Section ProbeProperties.

Variable pf : Platform.

Lemma lookupZ_reason_phrase (code : Z) :
  lookupZ code status_messages = reason_phrase code.
Proof.
  unfold status_messages, lookupZ.
  repeat match goal with
         | |- context [?a =? ?b] => destruct (Z.eqb_spec a b); [subst; reflexivity|]
         end.
  unfold reason_phrase.
  repeat match goal with
         | |- context [match ?c with _ => _ end] => destruct c; try reflexivity; try lia
         end.
Qed.

Lemma reason_phrase_truthy (code : Z) (phrase : string) :
  reason_phrase code = Some phrase -> truthy_str phrase = true.
Proof.
  rewrite <- lookupZ_reason_phrase. unfold status_messages, lookupZ.
  repeat match goal with
         | |- context [?a =? ?b] =>
             destruct (Z.eqb_spec a b); [intros H; inversion H; reflexivity|]
         end.
  discriminate.
Qed.

Lemma getStatusMessage_table (code : Z) :
  getStatusMessage code
  = match reason_phrase code with
    | Some phrase => phrase
    | None => "HTTP " ++ string_of_Z code
    end.
Proof.
  unfold getStatusMessage. rewrite lookupZ_reason_phrase.
  destruct (reason_phrase code) as [phrase|] eqn:E; [|reflexivity].
  rewrite (reason_phrase_truthy _ E). reflexivity.
Qed.

(** The loop of the tracer only appends to [chain], at most once per unit
    of [maxRedirects], and issues at most that many requests. *)
Lemma redirect_loop_bounds (n : nat) :
  forall (cur : string) (chain : list Hop.t) (options : json) (w : World),
    let r := redirect_loop pf n cur chain options w in
    (exists more, fst (fst r) = (chain ++ more)%list /\ (length more <= n)%nat)
    /\ (reqs w <= reqs (snd r) <= reqs w + n)%nat.
Proof.
  induction n as [|n IH]; intros cur chain options w; cbv zeta.
  - simpl. split; [exists []; rewrite app_nil_r; split; [reflexivity|simpl; lia] | lia].
  - assert (Stop : forall (e : option JsError) (w' : World),
              (reqs w <= reqs w' <= reqs w + S n)%nat ->
              (exists more, fst (fst (chain, e, w')) = (chain ++ more)%list
                            /\ (length more <= S n)%nat)
              /\ (reqs w <= reqs (snd (chain, e, w')) <= reqs w + S n)%nat).
    { intros e w' Hw. simpl. split; [|exact Hw].
      exists []. rewrite app_nil_r. split; [reflexivity|simpl; lia]. }
    cbn [redirect_loop].
    destruct options; try (apply Stop; lia);
      unfold bind, fetch, ret;
      match goal with
      | |- context [net w (reqs w) ?rq] => destruct (outcome (net w (reqs w) rq)) as [resp|err]
      end;
      try (apply Stop; simpl; lia);
      (destruct ((r_status resp >=? 300) && (r_status resp <? 400));
       [|apply Stop; simpl; lia];
       destruct (headers_get resp "location") as [|loc]; [apply Stop; simpl; lia|];
       destruct (truthy_str loc); [|apply Stop; simpl; lia];
       destruct (url_resolve pf loc cur) as [next|];
       [ match goal with
         | |- context [redirect_loop pf n ?c ?ch ?o ?w1] =>
             destruct (IH c ch o w1) as ((more & Hm & Hl) & Hr)
         end;
         simpl in Hr; split;
         [ eexists; rewrite Hm, <- app_assoc; split; [reflexivity|simpl; lia] | lia ]
       | simpl; split;
         [ eexists; split; [reflexivity|simpl; lia] | lia ] ]).
Qed.


Lemma getRedirectChain_drops_exception (url : string) (options : json) (w : World) :
  fst (getRedirectChain pf url options w)
  = chain_or_null (fst (fst (redirect_loop pf 5 url [] options w))).
Proof.
  unfold getRedirectChain, bind, ret.
  destruct (redirect_loop pf 5 url [] options w) as [[chain [e|]] w']; reflexivity.
Qed.


Lemma checkSingleLink_requests (url : string) (options : json) (w : World) :
  early_throw options = None ->
  checkSingleLink pf url options w = request_and_classify pf url options (clock w) w.
Proof.
  intros Ho. unfold checkSingleLink, bind, now. rewrite Ho. reflexivity.
Qed.

Lemma checkSingleLink_rejects (url : string) (options : json) (w : World)
    (err : JsError) :
  early_throw options = Some err ->
  checkSingleLink pf url options w = (Rejected err, w).
Proof.
  intros Ho. unfold checkSingleLink, bind, now, ret. rewrite Ho. reflexivity.
Qed.

(** What the probe returns once the network has answered its request. *)
Lemma checkSingleLink_responded (url : string) (options : json) (w : World)
    (response : HttpResponse) :
  early_throw options = None ->
  outcome (net w (reqs w) (fetchOptions url options)) = Responded response ->
  exists (chain : nullable (list Hop.t)) (stamp : Z) (hs : option Captured) (w' : World),
    checkSingleLink pf url options w
    = (Fulfilled
         {| Probe.url := url;
            Probe.status :=
              fst (classify (r_status response)
                            (latency (net w (reqs w) (fetchOptions url options))));
            Probe.statusCode := JNum (r_status response);
            Probe.message :=
              snd (classify (r_status response)
                            (latency (net w (reqs w) (fetchOptions url options))));
            Probe.responseTime := latency (net w (reqs w) (fetchOptions url options));
            Probe.redirectChain := Some chain;
            Probe.sslValid :=
              Some (if startsWith url "https:" && not_false (prop options "checkSSL")
                    then Val true else Null);
            Probe.timestamp := stamp;
            Probe.headers := hs;
            Probe.error := None |}, w').
Proof.
  intros Ho Hr. rewrite (@checkSingleLink_requests url options w Ho).
  unfold request_and_classify, bind, now, fetch, ret. rewrite Hr. cbn [clock].
  replace (clock w + latency (net w (reqs w) (fetchOptions url options)) - clock w)
    with (latency (net w (reqs w) (fetchOptions url options))) by lia.
  destruct (classify _ _) as [st msg]. cbn [fst snd].
  match goal with
  | |- context [if ?c then getRedirectChain _ _ _ else _] => destruct c
  end.
  - match goal with
    | |- context [getRedirectChain pf ?u ?o ?w1] =>
        destruct (getRedirectChain pf u o w1) as [ch w2]
    end.
    do 4 eexists; reflexivity.
  - do 4 eexists; reflexivity.
Qed.

(** What the probe returns once its request has failed. *)
Lemma checkSingleLink_failed (url : string) (options : json) (w : World)
    (err : JsError) :
  early_throw options = None ->
  outcome (net w (reqs w) (fetchOptions url options)) = Failed err ->
  exists (w' : World),
    checkSingleLink pf url options w
    = (Fulfilled
         {| Probe.url := url;
            Probe.status := broken;
            Probe.statusCode := failure_code err;
            Probe.message := failure_message err;
            Probe.responseTime := latency (net w (reqs w) (fetchOptions url options));
            Probe.redirectChain := Some Null;
            Probe.sslValid := Some Null;
            Probe.timestamp := clock w + latency (net w (reqs w) (fetchOptions url options));
            Probe.headers := None;
            Probe.error := Some (e_message err) |}, w').
Proof.
  intros Ho Hr. rewrite (@checkSingleLink_requests url options w Ho).
  unfold request_and_classify, bind, now, fetch, ret. rewrite Hr. cbn [clock].
  replace (clock w + latency (net w (reqs w) (fetchOptions url options)) - clock w)
    with (latency (net w (reqs w) (fetchOptions url options))) by lia.
  eexists; reflexivity.
Qed.

(** With [null] options the probe rejects at once. *)
Lemma checkSingleLink_null_options (url : string) (w : World) :
  checkSingleLink pf url JNull w = (Rejected (nullPropertyError "timeout"), w).
Proof. reflexivity. Qed.

Lemma checkSingleLink_settles (url : string) (options : json) (w : World) :
  early_throw options = None ->
  exists value w', checkSingleLink pf url options w = (Fulfilled value, w')
                   /\ Probe.url value = url.
Proof.
  intros Ho.
  destruct (outcome (net w (reqs w) (fetchOptions url options))) as [resp|err] eqn:Hr.
  - destruct (@checkSingleLink_responded url options w _ Ho Hr) as (c & s & h & w' & E).
    rewrite E. do 2 eexists. split; reflexivity.
  - destruct (@checkSingleLink_failed url options w _ Ho Hr) as (w' & E).
    rewrite E. do 2 eexists. split; reflexivity.
Qed.

(** C3. A probe that gets as far as its request (nothing throws while
    the request is built) and whose request is answered settles with the
    response's status as [statusCode] and the wall-clock time of the request as
    [responseTime], and is classified in this order: a status of 400 or
    more is [broken] with the reason phrase of the table, or
    ["HTTP <code>"]; otherwise more than 5000ms is [warning] with
    ["Slow Response"]; otherwise a status in [300,400) is [redirect];
    otherwise the link is [healthy] with ["OK"]. *)
Theorem checkSingleLink_classifies_response (url : string) (options : json)
    (w : World) (response : HttpResponse) :
  early_throw options = None ->
  outcome (net w (reqs w) (fetchOptions url options)) = Responded response ->
  exists value w',
    checkSingleLink pf url options w = (Fulfilled value, w')
    /\ Probe.statusCode value = JNum (r_status response)
    /\ Probe.responseTime value = latency (net w (reqs w) (fetchOptions url options))
    /\ (400 <= r_status response ->
        Probe.status value = broken
        /\ Probe.message value
           = match reason_phrase (r_status response) with
             | Some phrase => phrase
             | None => "HTTP " ++ string_of_Z (r_status response)
             end)
    /\ (r_status response < 400 -> 5000 < Probe.responseTime value ->
        Probe.status value = warning /\ Probe.message value = "Slow Response")
    /\ (300 <= r_status response < 400 -> Probe.responseTime value <= 5000 ->
        Probe.status value = redirect /\ Probe.message value = "Redirect")
    /\ (r_status response < 300 -> Probe.responseTime value <= 5000 ->
        Probe.status value = healthy /\ Probe.message value = "OK").
Proof.
  intros Ho Hr.
  destruct (@checkSingleLink_responded url options w _ Ho Hr) as (c & s & h & w' & E).
  rewrite E. do 2 eexists. split; [reflexivity|]. cbn [Probe.statusCode
    Probe.responseTime Probe.status Probe.message].
  set (code := r_status response).
  set (elapsed := latency (net w (reqs w) (fetchOptions url options))).
  unfold classify. rewrite <- getStatusMessage_table.
  split; [reflexivity|]. split; [reflexivity|].
  destruct (Z.geb_spec code 400) as [G|G].
  { repeat split; intros; try lia; reflexivity. }
  destruct (Z.gtb_spec elapsed 5000) as [S|S].
  { repeat split; intros; try lia; reflexivity. }
  destruct (Z.geb_spec code 300) as [R|R]; destruct (Z.ltb_spec code 400) as [L|L];
    cbn [andb fst snd]; repeat split; intros; try lia; reflexivity.
Qed.

(** C10. The result of a probe has [sslValid] equal to [true] or to
    [null], on the response path and on the failure path alike. *)
Theorem checkSingleLink_sslValid_true_or_null (url : string) (options : json)
    (w w' : World) (value : Probe.t) :
  checkSingleLink pf url options w = (Fulfilled value, w') ->
  Probe.sslValid value = Some (Val true) \/ Probe.sslValid value = Some Null.
Proof.
  intros E.
  destruct (early_throw options) as [e|] eqn:Ho.
  - rewrite (@checkSingleLink_rejects url options w e Ho) in E. discriminate.
  - destruct (outcome (net w (reqs w) (fetchOptions url options))) as [resp|err] eqn:Hr.
    + destruct (@checkSingleLink_responded url options w _ Ho Hr) as (c & s & h & w1 & E1).
      rewrite E1 in E. inversion E; subst. cbn [Probe.sslValid].
      destruct (startsWith url "https:" && not_false (prop options "checkSSL")); auto.
    + destruct (@checkSingleLink_failed url options w _ Ho Hr) as (w1 & E1).
      rewrite E1 in E. inversion E; subst. right. reflexivity.
Qed.

End ProbeProperties.

(* ===================================================================== *)
(** ** Properties of the scheduler                                        *)
(* ===================================================================== *)

Lemma make_batches_concat (links : list string) (i : nat) :
  concat (make_batches links i) = skipn i links.
Proof.
  funelim (make_batches links i).
  - cbn [concat].
    match goal with IH : concat _ = skipn _ _ |- _ => rewrite IH end.
    unfold slice, RATE_LIMITS.maxConcurrency.
    replace (i + 8 - i)%nat with 8%nat by lia.
    replace (i + 8)%nat with (8 + i)%nat by lia.
    rewrite <- skipn_skipn. apply firstn_skipn.
  - symmetry. apply skipn_all2. lia.
Qed.

Lemma skipn_nth_cons (batch : list string) :
  forall index, (index < length batch)%nat ->
    skipn index batch = nth index batch "" :: skipn (S index) batch.
Proof.
  induction batch as [|u rest IH]; intros index Hi; simpl in Hi; [lia|].
  destruct index as [|index]; [reflexivity|].
  cbn [skipn nth]. apply IH. lia.
Qed.

Lemma push_settled_spec (batchResults : list Settled) :
  forall (batch : list string) (index : nat) (stamp : Z) (results : list Probe.t),
    (index + length batchResults <= length batch)%nat ->
    push_settled batch index batchResults stamp results
    = (results ++ map (fun us => settle (fst us) stamp (snd us))
                      (combine (skipn index batch) batchResults))%list.
Proof.
  induction batchResults as [|r rest IH]; intros batch index stamp results Hl.
  - cbn [push_settled]. rewrite combine_nil, app_nil_r. reflexivity.
  - cbn [push_settled]. simpl in Hl.
    rewrite IH by lia. rewrite (@skipn_nth_cons batch index) by lia.
    cbn [combine map fst snd]. rewrite <- app_assoc. cbn [app].
    destruct r; reflexivity.
Qed.

Section SchedulerProperties.

Variable probe : string -> json -> M Settled.

Lemma allSettled_slots (options : json) (batch : list string) :
  forall w, Forall2 (fun url s => exists w1, s = fst (probe url options w1))
                    batch (fst (allSettled probe batch options w)).
Proof.
  induction batch as [|u rest IH]; intros w; cbn [allSettled].
  - constructor.
  - unfold bind, ret. destruct (probe u options w) as [s w1] eqn:E.
    specialize (IH w1). destruct (allSettled probe rest options w1) as [ss w2].
    cbn [fst] in *. constructor; [|exact IH].
    exists w. rewrite E. reflexivity.
Qed.

Lemma window_slots (options : json) (stamp : Z) (batch : list string)
    (batchResults : list Settled) :
  Forall2 (fun url s => exists w1, s = fst (probe url options w1)) batch batchResults ->
  Forall2 (slot_of probe options) batch
          (map (fun us => settle (fst us) stamp (snd us)) (combine batch batchResults)).
Proof.
  induction 1 as [|u s us ss (w1 & Hs) _ IH]; cbn [combine map]; constructor.
  - exists w1, stamp. rewrite Hs. reflexivity.
  - exact IH.
Qed.

Lemma run_batches_slots (options : json) (nbatches : nat) (pending : list (list string)) :
  forall (scheduled : list string) (results : list Probe.t) (w : World),
    Forall2 (slot_of probe options) scheduled results ->
    Forall2 (slot_of probe options) (scheduled ++ concat pending)
            (fst (run_batches probe pending nbatches options results w)).
Proof.
  induction pending as [|batch rest IH]; intros scheduled results w Hs.
  - cbn [run_batches concat]. rewrite app_nil_r. exact Hs.
  - cbn [run_batches concat]. unfold bind, now.
    pose proof (allSettled_slots options batch w) as Hb.
    destruct (allSettled probe batch options w) as [brs w1]. cbn [fst] in Hb.
    assert (Hlen : length batch = length brs) by (eapply Forall2_length; exact Hb).
    rewrite push_settled_spec by (simpl; lia). cbn [skipn].
    destruct ((if (1 <? nbatches)%nat then sleep 200 else ret tt) w1) as [u w2].
    rewrite app_assoc. apply IH.
    apply Forall2_app; [exact Hs|].
    apply window_slots. exact Hb.
Qed.

Lemma schedule_slots (links : list string) (options : json) (w : World) :
  Forall2 (slot_of probe options) links (fst (schedule probe links options w)).
Proof.
  unfold schedule.
  pose proof (@run_batches_slots options (length (make_batches links 0))
                (make_batches links 0) [] [] w (Forall2_nil _)) as H.
  rewrite make_batches_concat in H. exact H.
Qed.

(** C6. Whatever the probe is, every link has its slot in the output of
    the scheduler, in the order of the links, and the slot holds the
    outcome of a run of the probe on that link: the value the probe
    fulfilled with, or, when the probe rejected, an object with the link as
    [url], status [error], status code ["PROCESSING_ERROR"] and a response
    time of 0. A rejection removes no slot and stops no later probe. *)
Theorem schedule_substitutes_processing_error (links : list string)
    (options : json) (w : World) :
  length (fst (schedule probe links options w)) = length links
  /\ Forall2
       (fun url result =>
          exists w1,
            match fst (probe url options w1) with
            | Fulfilled value => result = value
            | Rejected reason =>
                Probe.url result = url
                /\ Probe.status result = error
                /\ Probe.statusCode result = JStr "PROCESSING_ERROR"
                /\ Probe.responseTime result = 0
                /\ Probe.error result = Some (reason_message reason)
            end)
       links (fst (schedule probe links options w)).
Proof.
  pose proof (schedule_slots links options w) as H.
  split; [symmetry; eapply Forall2_length; exact H|].
  eapply Forall2_impl; [|exact H].
  intros url result (w1 & stamp & Hr). exists w1.
  destruct (fst (probe url options w1)); subst result; cbn [settle];
    [reflexivity|repeat split].
Qed.

End SchedulerProperties.

Section BatchProperties.

Variable pf : Platform.

(** C2. The scheduler returns one result per link, and the results are in
    the order of the links: the [url] of the i-th result is the i-th
    link. *)
Theorem processLinksWithConcurrency_one_result_per_link (links : list string)
    (options : json) (w : World) :
  length (fst (processLinksWithConcurrency pf links options w)) = length links
  /\ map Probe.url (fst (processLinksWithConcurrency pf links options w)) = links.
Proof.
  unfold processLinksWithConcurrency.
  pose proof (schedule_slots (checkSingleLink pf) links options w) as H.
  split; [symmetry; eapply Forall2_length; exact H|].
  induction H as [|u r us rs (w1 & stamp & Hr) _ IH]; [reflexivity|].
  cbn [map]. rewrite IH. f_equal. subst r.
  destruct (early_throw options) as [e|] eqn:Ho.
  - rewrite (@checkSingleLink_rejects pf u options w1 e Ho). reflexivity.
  - destruct (@checkSingleLink_settles pf u options w1 Ho) as (value & w' & E & Hu).
    rewrite E. exact Hu.
Qed.

End BatchProperties.

(* ===================================================================== *)
(** ** Pacing delays                                                      *)
(* ===================================================================== *)

Lemma delays_app (a b : list Effect) :
  delays (a ++ b) = (delays a + delays b)%nat.
Proof.
  induction a as [|e a IH]; [reflexivity|].
  destruct e; cbn [app delays]; rewrite IH; reflexivity.
Qed.

Section PacingProperties.

Variable pf : Platform.

Lemma redirect_loop_no_delay (n : nat) :
  forall cur chain options w,
    delays (log (snd (redirect_loop pf n cur chain options w))) = delays (log w).
Proof.
  induction n as [|n IH]; intros cur chain options w; [reflexivity|].
  cbn [redirect_loop].
  assert (F : forall rq, delays (log (snd (fetch rq w))) = delays (log w)).
  { intros rq. unfold fetch. cbn [snd log]. rewrite delays_app. simpl. lia. }
  destruct options; try reflexivity; unfold bind, ret;
    match goal with
    | |- context [fetch ?rq w] =>
        specialize (F rq); destruct (fetch rq w) as [reply w1]
    end;
    cbn [snd] in F;
    (destruct (outcome reply) as [resp|err]; [|exact F];
     destruct ((r_status resp >=? 300) && (r_status resp <? 400)); [|exact F];
     destruct (headers_get resp "location") as [|loc]; [exact F|];
     destruct (truthy_str loc); [|exact F];
     destruct (url_resolve pf loc cur) as [next|]; [|exact F];
     rewrite IH; exact F).
Qed.

Lemma getRedirectChain_no_delay (url : string) (options : json) (w : World) :
  delays (log (snd (getRedirectChain pf url options w))) = delays (log w).
Proof.
  unfold getRedirectChain, bind, ret.
  pose proof (redirect_loop_no_delay 5 url [] options w) as H.
  destruct (redirect_loop pf 5 url [] options w) as [[chain [e|]] w']; exact H.
Qed.

Lemma checkSingleLink_no_delay (url : string) (options : json) (w : World) :
  delays (log (snd (checkSingleLink pf url options w))) = delays (log w).
Proof.
  destruct (early_throw options) as [e|] eqn:Ho.
  - rewrite (@checkSingleLink_rejects pf url options w e Ho). reflexivity.
  - rewrite (@checkSingleLink_requests pf url options w Ho).
    unfold request_and_classify, bind, now, ret.
    assert (F : delays (log (snd (fetch (fetchOptions url options) w))) = delays (log w)).
    { unfold fetch. cbn [snd log]. rewrite delays_app. simpl. lia. }
    destruct (fetch (fetchOptions url options) w) as [reply w1]. cbn [snd] in F.
    destruct (outcome reply) as [resp|err]; [|exact F].
    destruct (classify _ _) as [st msg].
    match goal with
    | |- context [if ?c then getRedirectChain _ _ _ else _] => destruct c
    end; [|exact F].
    pose proof (getRedirectChain_no_delay url options w1) as G.
    destruct (getRedirectChain pf url options w1) as [ch w2]. cbn [snd] in *.
    congruence.
Qed.

Lemma allSettled_no_delay (options : json) (batch : list string) :
  forall w, delays (log (snd (allSettled (checkSingleLink pf) batch options w)))
            = delays (log w).
Proof.
  induction batch as [|u rest IH]; intros w; [reflexivity|].
  cbn [allSettled]. unfold bind, ret.
  pose proof (checkSingleLink_no_delay u options w) as H.
  destruct (checkSingleLink pf u options w) as [s w1]. cbn [snd] in H.
  specialize (IH w1). destruct (allSettled _ rest options w1) as [ss w2].
  cbn [snd] in *. congruence.
Qed.

Lemma run_batches_delays (options : json) (nbatches : nat) (pending : list (list string)) :
  forall results w,
    delays (log (snd (run_batches (checkSingleLink pf) pending nbatches options results w)))
    = (delays (log w) + if (1 <? nbatches)%nat then length pending else 0)%nat.
Proof.
  induction pending as [|batch rest IH]; intros results w.
  - cbn [run_batches]. unfold ret. simpl. destruct (1 <? nbatches)%nat; lia.
  - cbn [run_batches]. unfold bind, now.
    pose proof (allSettled_no_delay options batch w) as H.
    destruct (allSettled _ batch options w) as [brs w1]. cbn [snd] in H.
    destruct (1 <? nbatches)%nat eqn:E.
    + unfold sleep at 1. rewrite IH. cbn [log]. rewrite delays_app. simpl. lia.
    + unfold ret at 1. rewrite IH. lia.
Qed.

(** The delays of one run: none when the links fit one window, and
    otherwise one after every window, the last window included. *)
Lemma pacing_delay_count (links : list string) (options : json)
    (w : World) :
  let windows := length (make_batches links 0) in
  delays (log (snd (processLinksWithConcurrency pf links options w)))
  = (delays (log w) + if (1 <? windows)%nat then windows else 0)%nat.
Proof.
  unfold processLinksWithConcurrency, schedule. cbv zeta. apply run_batches_delays.
Qed.

End PacingProperties.

(* ===================================================================== *)
(** ** Properties of the handler and of the sanitiser                     *)
(* ===================================================================== *)

Lemma prefix_append (p s : string) : String.prefix p (p ++ s) = true.
Proof.
  induction p as [|c p IH]; simpl; [destruct s; reflexivity|].
  destruct (ascii_dec c c); [exact IH|congruence].
Qed.

Section HandlerProperties.

Variable pf : Platform.

(** C7. A POST request whose body cannot be decoded, carries no array of
    links, an empty one, one of more than 50 links, or one of which no
    link survives [sanitizeUrl] and [validateUrl], is answered with an
    error of its own status code and text, and the world is left as it
    was: no request is issued, no delay taken, no result produced. The
    50-link limit is checked on the raw array, before any link is looked
    at. *)
Theorem handler_rejects_before_any_request (event : LambdaEvent) (w : World)
    (code : Z) (text : string) :
  httpMethod event = "POST" ->
  Rejects pf (body event) code text ->
  exists more,
    handler pf event w
    = ({| statusCode := code; responseBody := ErrorBody text more |}, w)
    /\ code <> 200.
Proof.
  destruct event as [method content]. cbn [httpMethod body].
  intros Hm Hr. subst method. unfold handler.
  cbn [httpMethod body String.eqb Ascii.eqb Bool.eqb negb andb].
  inversion Hr as [err | | request Hn Ha | request Hl
                   | request links Hl Hlen | request links Hl Hlen Hf];
    subst.
  - eexists. unfold internal_error. split; [reflexivity|lia].
  - eexists. unfold internal_error. split; [reflexivity|lia].
  - destruct request as [|b|z|s|items|props]; try congruence; cbn [prop] in *;
      try (eexists; split; [reflexivity|lia]).
    destruct (assoc "links" props) as [[| | | |links|]|] eqn:P;
      try (eexists; split; [reflexivity|lia]).
    exfalso. exact (Ha links eq_refl).
  - destruct request as [|b|z|s|items|props]; try discriminate.
    cbn [prop] in *. rewrite Hl. eexists. split; [reflexivity|lia].
  - assert (E1 : (length links =? 0)%nat = false) by (apply Nat.eqb_neq; lia).
    assert (E2 : (RATE_LIMITS.maxLinksPerRequest <? length links)%nat = true)
      by (apply Nat.ltb_lt; unfold RATE_LIMITS.maxLinksPerRequest; lia).
    destruct request as [|b|z|s|items|props]; try discriminate.
    cbn [prop] in *. rewrite Hl, E1, E2. eexists. split; [reflexivity|lia].
  - assert (E1 : (length links =? 0)%nat = false) by (apply Nat.eqb_neq; lia).
    assert (E2 : (RATE_LIMITS.maxLinksPerRequest <? length links)%nat = false)
      by (apply Nat.ltb_ge; unfold RATE_LIMITS.maxLinksPerRequest; lia).
    destruct request as [|b|z|s|items|props]; try discriminate.
    cbn [prop] in *. rewrite Hl, E1, E2, Hf. eexists. split; [reflexivity|lia].
Qed.

(** C8. On a platform whose URL class serialises http and https inputs to
    trimmed http or https strings that parse back to themselves, every
    string [sanitizeUrl] returns is returned unchanged when sanitised
    again. *)
Theorem sanitizeUrl_idempotent (link : json) (url : string) :
  normalising pf ->
  sanitizeUrl pf link = Val url ->
  sanitizeUrl pf (JStr url) = Val url.
Proof.
  intros Law Hs. unfold sanitizeUrl in Hs.
  destruct link as [| | |s| |]; try discriminate.
  set (input := if negb (startsWith (trim s) "http://")
                   && negb (startsWith (trim s) "https://")
                then "https://" ++ trim s else trim s) in Hs.
  assert (Hp : has_http_prefix input = true).
  { unfold has_http_prefix, input.
    destruct (startsWith (trim s) "http://") eqn:A;
      destruct (startsWith (trim s) "https://") eqn:B;
      cbn [negb andb]; rewrite ?A, ?B; try reflexivity.
    unfold startsWith. rewrite prefix_append. apply orb_true_r. }
  destruct (url_parse pf input) as [u|] eqn:P; [|discriminate].
  inversion Hs; subst url. clear Hs.
  destruct (Law input u P Hp) as (Ht & Hh & u' & P' & Hu).
  unfold sanitizeUrl. rewrite Ht.
  unfold has_http_prefix in Hh.
  destruct (startsWith (href u) "http://"); cbn [negb andb];
    [|destruct (startsWith (href u) "https://"); [|discriminate]; cbn [negb]];
    rewrite P', Hu; reflexivity.
Qed.

End HandlerProperties.

(* ===================================================================== *)
(** ** The sample platform obeys the URL laws                             *)
(* ===================================================================== *)

Lemma prefix_split (p : string) :
  forall s, String.prefix p s = true -> s = p ++ Sample.drop (String.length p) s.
Proof.
  induction p as [|c p IH]; intros s H.
  - destruct s; reflexivity.
  - destruct s as [|d s]; simpl in H; [discriminate|].
    destruct (ascii_dec c d); [subst d|discriminate].
    simpl. f_equal. apply IH. exact H.
Qed.

Lemma has_space_app (a b : string) :
  Sample.has_space (a ++ b) = Sample.has_space a || Sample.has_space b.
Proof.
  induction a as [|c a IH]; simpl; [reflexivity|].
  rewrite IH. apply orb_assoc.
Qed.

Lemma trim_without_space (s : string) :
  Sample.has_space s = false -> trim s = s.
Proof.
  intros H. unfold trim.
  assert (S1 : trimStart s = s).
  { destruct s as [|c r]; [reflexivity|]. simpl in *.
    apply orb_false_elim in H. destruct H as [Hc _]. rewrite Hc. reflexivity. }
  rewrite S1. clear S1.
  induction s as [|c r IH]; [reflexivity|].
  simpl in H. apply orb_false_elim in H. destruct H as [Hc Hr].
  cbn [trimEnd]. rewrite (IH Hr).
  destruct r; [rewrite Hc|]; reflexivity.
Qed.

Lemma includes_slash_appended (r : string) : includes (r ++ "/") "/" = true.
Proof.
  induction r as [|c r IH]; [reflexivity|].
  cbn [append includes]. rewrite IH. apply orb_true_r.
Qed.

Lemma append_slash_not_empty (r : string) : String.eqb (r ++ "/") "" = false.
Proof. destruct r; reflexivity. Qed.

Lemma sample_parse_shape (input : string) (u : URL) :
  Sample.parse input = Some u ->
  exists lead rest,
    (lead = "http://" \/ lead = "https://")
    /\ input = lead ++ rest
    /\ String.eqb rest "" = false
    /\ Sample.has_space rest = false
    /\ href u = if includes rest "/" then input else input ++ "/".
Proof.
  unfold Sample.parse. intros P.
  destruct (startsWith input "http://") eqn:A.
  - apply prefix_split in A. cbn [String.length Nat.add] in *.
    remember (Sample.drop 7 input) as rest eqn:R.
    destruct (String.eqb rest "") eqn:E1; [discriminate|].
    destruct (Sample.has_space input) eqn:E2; [discriminate|].
    cbn [orb] in P. inversion P; subst u. cbn [href].
    exists "http://", rest. repeat split; auto.
    rewrite A in E2. exact E2.
  - destruct (startsWith input "https://") eqn:B; [|discriminate].
    apply prefix_split in B. cbn [String.length Nat.add] in *.
    remember (Sample.drop 8 input) as rest eqn:R.
    destruct (String.eqb rest "") eqn:E1; [discriminate|].
    destruct (Sample.has_space input) eqn:E2; [discriminate|].
    cbn [orb] in P. inversion P; subst u. cbn [href].
    exists "https://", rest. repeat split; auto.
    rewrite B in E2. exact E2.
Qed.

Lemma sample_parse_built (lead rest : string) :
  lead = "http://" \/ lead = "https://" ->
  String.eqb rest "" = false ->
  Sample.has_space rest = false ->
  includes rest "/" = true ->
  exists u, Sample.parse (lead ++ rest) = Some u /\ href u = lead ++ rest.
Proof.
  intros [L|L] E1 E2 I; subst lead; unfold Sample.parse, startsWith;
    cbn [String.prefix append String.length Nat.add Sample.drop Sample.has_space];
    repeat match goal with
           | |- context [ascii_dec ?a ?b] =>
               let d := eval vm_compute in (ascii_dec a b) in
               change (ascii_dec a b) with d; cbv iota
           end;
    repeat match goal with
           | |- context [is_js_space ?a] =>
               let d := eval vm_compute in (is_js_space a) in
               change (is_js_space a) with d
           end;
    replace (String.prefix "" rest) with true by (destruct rest; reflexivity);
    cbn [String.length Nat.add Sample.drop orb]; rewrite E1, E2, I;
    eexists; split; reflexivity.
Qed.

Lemma sample_platform_normalising : normalising Sample.platform.
Proof.
  intros input u P _. cbn [url_parse Sample.platform] in *.
  destruct (sample_parse_shape _ P) as (lead & rest & L & Hin & E1 & E2 & Hh).
  assert (Hlead : Sample.has_space lead = false /\ has_http_prefix lead = true).
  { destruct L; subst lead; split; reflexivity. }
  destruct Hlead as [Hl1 Hl2].
  assert (Pre : forall tail, has_http_prefix (lead ++ tail) = true).
  { intros tail. unfold has_http_prefix, startsWith.
    destruct L; subst lead; rewrite prefix_append; [reflexivity|apply orb_true_r]. }
  rewrite Hh. subst input.
  destruct (includes rest "/") eqn:I.
  - split; [apply trim_without_space; rewrite has_space_app, Hl1, E2; reflexivity|].
    split; [apply Pre|].
    apply sample_parse_built; assumption.
  - assert (Q : (lead ++ rest) ++ "/" = lead ++ (rest ++ "/")).
    { clear. induction lead as [|c l IH]; simpl; [reflexivity|]. rewrite IH. reflexivity. }
    rewrite Q.
    split; [apply trim_without_space; rewrite !has_space_app, Hl1, E2; reflexivity|].
    split; [apply Pre|].
    apply sample_parse_built; auto.
    + apply append_slash_not_empty.
    + rewrite has_space_app, E2. reflexivity.
    + apply includes_slash_appended.
Qed.

(* ===================================================================== *)
(** ** The failure table                                                  *)
(* ===================================================================== *)

(** What the table of lines 248-256 gives: the first two codes always get
    their message; every other [FetchError] is a "Request Timeout",
    whatever its code; the certificate and the fallback messages are left
    to errors that are not [FetchError]s. *)
Lemma failure_message_table (err : JsError) :
  (e_code err = Some "ENOTFOUND" -> failure_message err = "DNS Resolution Failed")
  /\ (e_code err = Some "ECONNREFUSED" -> failure_message err = "Connection Refused")
  /\ (e_code err = Some "ETIMEDOUT" -> failure_message err = "Request Timeout")
  /\ (e_name err = "FetchError" ->
      e_code err <> Some "ENOTFOUND" -> e_code err <> Some "ECONNREFUSED" ->
      failure_message err = "Request Timeout")
  /\ (e_name err <> "FetchError" -> e_code err = Some "CERT_HAS_EXPIRED" ->
      failure_message err = "SSL Certificate Expired").
Proof.
  unfold failure_message, code_is.
  repeat split.
  - intros H. rewrite H. reflexivity.
  - intros H. rewrite H. reflexivity.
  - intros H. rewrite H. reflexivity.
  - intros Hn H1 H2. rewrite Hn.
    destruct (e_code err) as [c|]; [|reflexivity].
    destruct (String.eqb_spec c "ENOTFOUND"); [subst; congruence|].
    destruct (String.eqb_spec c "ECONNREFUSED"); [subst; congruence|].
    rewrite orb_true_r. reflexivity.
  - intros Hn H. rewrite H. apply String.eqb_neq in Hn. rewrite Hn. reflexivity.
Qed.

(** C4, at a request that fails on an expired certificate, and at one
    that fails on a connection reset, both as node-fetch raises them: the
    result is [broken], carries the error's code, and its message is
    "Request Timeout" in both cases, not "SSL Certificate Expired" and not
    "Connection Failed". *)
Theorem checkSingleLink_fetch_error_reads_timeout :
  let probe err :=
    fst (checkSingleLink Sample.platform "https://expired.example.com/" (JObj [])
           (Sample.world (Sample.net_fail err))) in
  (exists value,
      probe Sample.expired_certificate = Fulfilled value
      /\ Probe.status value = broken
      /\ Probe.statusCode value = JStr "CERT_HAS_EXPIRED"
      /\ Probe.message value = "Request Timeout"
      /\ Probe.message value <> "SSL Certificate Expired")
  /\ (exists value,
         probe Sample.connection_reset = Fulfilled value
         /\ Probe.status value = broken
         /\ Probe.statusCode value = JStr "ECONNRESET"
         /\ Probe.message value = "Request Timeout"
         /\ Probe.message value <> "Connection Failed").
Proof.
  cbv zeta. split; eexists; (split; [vm_compute; reflexivity|]);
    cbn [Probe.status Probe.statusCode Probe.message];
    repeat split; discriminate.
Qed.

(* ===================================================================== *)
(** ** Runs on the sample inputs                                          *)
(* ===================================================================== *)

(** C5, at nine links, which make two windows: the log of the run holds
    the eight requests of the first window, a delay of 200ms, the request
    of the second window, and a second delay of 200ms after that last
    window. *)
Theorem processLinksWithConcurrency_delays_after_last_window :
  let w' := snd (processLinksWithConcurrency Sample.platform Sample.nine_links
                   (JObj []) (Sample.world Sample.net_ok)) in
  let request url := EvFetch (fetchOptions url (JObj [])) in
  length (make_batches Sample.nine_links 0) = 2%nat
  /\ log w' = (map request (firstn 8 Sample.nine_links) ++ [EvDelay 200]
               ++ map request (skipn 8 Sample.nine_links) ++ [EvDelay 200])%list
  /\ fetched (log w') = Sample.nine_links
  /\ delays (log w') = 2%nat
  /\ last (log w') (EvDelay 0) = EvDelay 200.
Proof.
  cbv zeta. repeat split; vm_compute; reflexivity.
Qed.

(** A probe with [null] options rejects, and the scheduler's stand-in is
    what reaches [generateSummary]. *)
Lemma processLinksWithConcurrency_null_options :
  fst (processLinksWithConcurrency Sample.platform ["https://example.com/"] JNull
         (Sample.world Sample.net_ok))
  = [processing_error "https://example.com/" 1000 (nullPropertyError "timeout")].
Proof. vm_compute. reflexivity. Qed.

(** The same through the handler: the body [{"links": ["example.com"],
    "options": null}] is answered 200 with a summary whose [error]
    counter is [NaN]. *)
Lemma handler_null_options_summary :
  exists results summary stamp w',
    handler Sample.platform (Sample.post (Sample.request [JStr "example.com"] JNull))
            (Sample.world Sample.net_ok)
    = ({| statusCode := 200;
          responseBody := ReportBody results summary 1 stamp |}, w')
    /\ Summary.total summary = 1%nat
    /\ Summary.error summary = Some NaN
    /\ counts_sum summary = NaN.
Proof.
  do 4 eexists. split; [vm_compute; reflexivity|].
  repeat split.
Qed.

(** The classification at work: a 200 answered in 120ms is healthy. *)
Lemma checkSingleLink_classifies_response_witness :
  exists value w',
    checkSingleLink Sample.platform "https://example.com/" (JObj [])
                    (Sample.world Sample.net_ok) = (Fulfilled value, w')
    /\ Probe.statusCode value = JNum 200
    /\ Probe.status value = healthy
    /\ Probe.message value = "OK".
Proof.
  destruct (@checkSingleLink_classifies_response Sample.platform
              "https://example.com/" (JObj []) (Sample.world Sample.net_ok)
              (Sample.ok_response "https://example.com/"))
    as (value & w' & E & Hc & Ht & _ & _ & _ & Hh).
  - reflexivity.
  - reflexivity.
  - exists value, w'. split; [exact E|]. split; [exact Hc|].
    apply Hh; [simpl; lia|rewrite Ht; simpl; lia].
Defined.

(** A probe that failed on a certificate error still has [sslValid] null. *)
Lemma checkSingleLink_sslValid_witness :
  exists value w',
    checkSingleLink Sample.platform "https://example.com/" (JObj [])
                    (Sample.world (Sample.net_fail Sample.expired_certificate))
    = (Fulfilled value, w')
    /\ (Probe.sslValid value = Some (Val true) \/ Probe.sslValid value = Some Null).
Proof.
  do 2 eexists. split; [vm_compute; reflexivity|].
  eapply (@checkSingleLink_sslValid_true_or_null Sample.platform
            "https://example.com/" (JObj [])
            (Sample.world (Sample.net_fail Sample.expired_certificate))).
  vm_compute. reflexivity.
Defined.

(** Sixty links are turned away with 429 and the world untouched. *)
Lemma handler_rejects_witness :
  exists more,
    handler Sample.platform (Sample.post (Sample.request Sample.sixty_links (JObj [])))
            (Sample.world Sample.net_ok)
    = ({| statusCode := 429;
          responseBody := ErrorBody "Maximum 50 links per request" more |},
       Sample.world Sample.net_ok)
    /\ 429 <> 200.
Proof.
  apply (@handler_rejects_before_any_request Sample.platform
           (Sample.post (Sample.request Sample.sixty_links (JObj [])))
           (Sample.world Sample.net_ok) 429 "Maximum 50 links per request").
  - reflexivity.
  - apply (@rej_oversized Sample.platform _ Sample.sixty_links).
    + reflexivity.
    + vm_compute. lia.
Defined.

(** [example.com] is sanitised to [https://example.com/], which is a fixed
    point. *)
Lemma sanitizeUrl_idempotent_witness :
  sanitizeUrl Sample.platform (JStr "  example.com ") = Val "https://example.com/"
  /\ sanitizeUrl Sample.platform (JStr "https://example.com/")
     = Val "https://example.com/".
Proof.
  split; [reflexivity|].
  apply (@sanitizeUrl_idempotent Sample.platform (JStr "  example.com ")).
  - exact sample_platform_normalising.
  - reflexivity.
Defined.

(* ===================================================================== *)
(** ** Scenarios                                                          *)
(* ===================================================================== *)

(** [example.com] is sanitised to [https://example.com/]; a 200 in 120ms
    is healthy. *)
Example scenario_healthy :
  sanitizeUrl Sample.platform (JStr "example.com") = Val "https://example.com/"
  /\ exists value,
       fst (checkSingleLink Sample.platform "https://example.com/" (JObj [])
              (Sample.world Sample.net_ok)) = Fulfilled value
       /\ Probe.status value = healthy
       /\ Probe.statusCode value = JNum 200
       /\ Probe.message value = "OK".
Proof.
  split; [reflexivity|]. eexists. split; [vm_compute; reflexivity|].
  repeat split.
Qed.

(** A batch of the single link [http://10.0.0.5/] has no valid URL. *)
Example scenario_private_address :
  validateUrl Sample.platform "http://10.0.0.5/" = false
  /\ handler Sample.platform
       (Sample.post (Sample.request [JStr "http://10.0.0.5/"] (JObj [])))
       (Sample.world Sample.net_ok)
     = ({| statusCode := 400;
           responseBody := ErrorBody "No valid URLs provided" None |},
        Sample.world Sample.net_ok).
Proof. split; reflexivity. Qed.

(** A link that moved: the result is classified on the final response and
    the chain has the one 301 hop. *)
Example scenario_moved :
  exists value,
    fst (checkSingleLink Sample.platform "https://old.example.com/" (JObj [])
           (Sample.world Sample.net_moved)) = Fulfilled value
    /\ Probe.status value = healthy
    /\ Probe.redirectChain value
       = Some (Val [Hop.mk "https://old.example.com/" 301 "https://new.example.com/"]).
Proof.
  eexists. split; [vm_compute; reflexivity|]. repeat split.
Qed.

(** A redirect loop is cut after five hops and five requests. *)
Example scenario_redirect_loop :
  exists chain w',
    getRedirectChain Sample.platform "https://loop.example.com/" (JObj [])
                     (Sample.world Sample.net_loop) = (Val chain, w')
    /\ length chain = 5%nat
    /\ reqs w' = 5%nat.
Proof.
  do 2 eexists. split; [vm_compute; reflexivity|]. split; reflexivity.
Qed.

(** A failed DNS lookup. *)
Example scenario_dns_failure :
  exists value,
    fst (checkSingleLink Sample.platform "https://nowhere.example/" (JObj [])
           (Sample.world (Sample.net_fail Sample.dns_failure))) = Fulfilled value
    /\ Probe.status value = broken
    /\ Probe.message value = "DNS Resolution Failed".
Proof.
  eexists. split; [vm_compute; reflexivity|]. repeat split.
Qed.

(** One faulty probe in the first of two windows: nine results come back,
    the third is the stand-in, and the eight other links are requested,
    those of the second window included. *)
Example scenario_faulty_probe :
  let run := schedule (Sample.flaky_probe "https://a3.example.com/")
                      Sample.nine_links (JObj []) (Sample.world Sample.net_ok) in
  map Probe.url (fst run) = Sample.nine_links
  /\ map Probe.status (fst run)
     = [healthy; healthy; error; healthy; healthy; healthy; healthy; healthy; healthy]
  /\ fetched (log (snd run))
     = [ "https://a1.example.com/"; "https://a2.example.com/";
         "https://a4.example.com/"; "https://a5.example.com/";
         "https://a6.example.com/"; "https://a7.example.com/";
         "https://a8.example.com/"; "https://a9.example.com/" ].
Proof. cbv zeta. repeat split; vm_compute; reflexivity. Qed.

(* ===================================================================== *)
(** ** Further properties: sanitiser and validator                        *)
(* ===================================================================== *)

Lemma toLowerCase_app (a b : string) :
  toLowerCase (a ++ b) = toLowerCase a ++ toLowerCase b.
Proof.
  induction a as [|c a IH]; simpl; [reflexivity|]. rewrite IH. reflexivity.
Qed.

Lemma includes_infix (pre needle post : string) :
  includes (pre ++ needle ++ post) needle = true.
Proof.
  induction pre as [|c pre IH].
  - cbn [append]. pose proof (prefix_append needle post) as P.
    destruct (needle ++ post); cbn [includes]; rewrite P; reflexivity.
  - cbn [append includes]. rewrite IH. apply orb_true_r.
Qed.

Section SanitizerProperties.

Variable pf : Platform.

(** X1. Whatever [sanitizeUrl] returns is the serialisation of a string
    the URL class parsed, and that string is the trimmed input itself when
    it starts with [http://] or [https://], and the trimmed input behind
    [https://] otherwise: the parser is never handed a string without one
    of the two prefixes, and a link that is not a string gives [null]. *)
Theorem sanitizeUrl_output_shape (link : json) (url : string) :
  sanitizeUrl pf link = Val url ->
  exists raw input u,
    link = JStr raw
    /\ ((has_http_prefix (trim raw) = true /\ input = trim raw)
        \/ (has_http_prefix (trim raw) = false /\ input = "https://" ++ trim raw))
    /\ has_http_prefix input = true
    /\ url_parse pf input = Some u
    /\ url = href u.
Proof.
  intros H. destruct link as [| | |raw| |]; try discriminate.
  unfold sanitizeUrl in H.
  destruct (has_http_prefix (trim raw)) eqn:P; unfold has_http_prefix in P.
  - assert (E : negb (startsWith (trim raw) "http://")
                && negb (startsWith (trim raw) "https://") = false).
    { destruct (startsWith (trim raw) "http://");
        destruct (startsWith (trim raw) "https://"); try reflexivity; discriminate. }
    rewrite E in H.
    destruct (url_parse pf (trim raw)) as [u|] eqn:U; [|discriminate].
    inversion H. exists raw, (trim raw), u.
    split; [reflexivity|]. split; [left; split; [|reflexivity]|].
    + unfold has_http_prefix. exact P.
    + split; [unfold has_http_prefix; exact P|]. split; [exact U|reflexivity].
  - pose proof P as P0. apply orb_false_elim in P. destruct P as [P1 P2]. rewrite P1, P2 in H.
    cbn [negb andb] in H.
    destruct (url_parse pf ("https://" ++ trim raw)) as [u|] eqn:U; [|discriminate].
    inversion H. exists raw, ("https://" ++ trim raw), u.
    split; [reflexivity|]. split; [right; split; [|reflexivity]|].
    + unfold has_http_prefix. exact P0.
    + split; [|split; [exact U|reflexivity]].
      unfold has_http_prefix, startsWith. rewrite prefix_append. apply orb_true_r.
Qed.

(** X2. A URL whose host name contains one of the blocked markers
    anywhere, in whatever letter case, is refused by [validateUrl],
    whatever its protocol: the test is a substring test on the lowered
    host name. *)
Theorem validateUrl_rejects_marker_anywhere (url : string) (u : URL)
    (pre mid post marker : string) :
  url_parse pf url = Some u ->
  hostname u = pre ++ mid ++ post ->
  toLowerCase mid = marker ->
  In marker BLOCKED_HOSTS ->
  validateUrl pf url = false.
Proof.
  intros P Hh Hm Hin. unfold validateUrl. rewrite P.
  destruct (negb (array_includes ALLOWED_PROTOCOLS (protocol u))); [reflexivity|].
  assert (E : existsb (fun blocked => includes (toLowerCase (hostname u)) blocked)
                      BLOCKED_HOSTS = true).
  { apply existsb_exists. exists marker. split; [exact Hin|].
    rewrite Hh, !toLowerCase_app, Hm. apply includes_infix. }
  rewrite E. reflexivity.
Qed.

Lemma filter_links_valid (links : list (nullable string)) :
  Forall (fun url => validateUrl pf url = true /\ url <> "") (filter_links pf links)
  /\ (length (filter_links pf links) <= length links)%nat.
Proof.
  induction links as [|link rest [IHv IHl]]; cbn [filter_links].
  - split; [constructor|simpl; lia].
  - unfold keep_link. destruct link as [|url]; [split; [exact IHv|simpl; lia]|].
    destruct (truthy_str url) eqn:T; cbn [andb];
      [|split; [exact IHv|simpl; lia]].
    destruct (validateUrl pf url) eqn:V; [|split; [exact IHv|simpl; lia]].
    split; [|simpl; lia].
    constructor; [|exact IHv]. split; [exact V|].
    intros ->. discriminate.
Qed.

(** X3. A link is kept by the handler's filter only if it is a non-empty
    string that [validateUrl] accepts, so what the filter returns is no
    longer than what it was given and holds accepted URLs only. *)
Theorem filter_links_accepted (links : list (nullable string)) :
  Forall (fun url => validateUrl pf url = true /\ url <> "") (filter_links pf links)
  /\ (length (filter_links pf links) <= length links)%nat.
Proof. exact (filter_links_valid links). Qed.

End SanitizerProperties.

(* ===================================================================== *)
(** ** Further properties: windows                                        *)
(* ===================================================================== *)

Lemma slice_window_length (links : list string) (i : nat) :
  length (slice links i (i + RATE_LIMITS.maxConcurrency))
  = Nat.min 8 (length links - i).
Proof.
  unfold slice, RATE_LIMITS.maxConcurrency.
  replace (i + 8 - i)%nat with 8%nat by lia.
  rewrite length_firstn, length_skipn. reflexivity.
Qed.

Lemma make_batches_shape (links : list string) (i : nat) :
  Forall (fun batch => (1 <= length batch <= 8)%nat) (make_batches links i)
  /\ (8 * length (make_batches links i) < length links - i + 8
      /\ length links - i <= 8 * length (make_batches links i))%nat
  /\ (forall k batch,
        nth_error (make_batches links i) k = Some batch ->
        (S k < length (make_batches links i))%nat ->
        length batch = 8%nat).
Proof.
  funelim (make_batches links i).
  - match goal with
    | IH : Forall _ _ /\ _ |- _ => destruct IH as (IHf & (IHlo & IHhi) & IHk)
    end.
    unfold RATE_LIMITS.maxConcurrency in *.
    pose proof (slice_window_length links i) as Hs.
    unfold RATE_LIMITS.maxConcurrency in Hs.
    split; [|split].
    + constructor; [lia|exact IHf].
    + cbn [length]. lia.
    + intros k batch Hk Hlt. cbn [length] in Hlt. destruct k as [|k].
      * cbn [nth_error] in Hk. inversion Hk; subst batch. lia.
      * cbn [nth_error] in Hk. apply (IHk k batch Hk). lia.
  - split; [constructor|]. split; [simpl; lia|].
    intros k batch Hk. destruct k; discriminate.
Qed.

(** X4. The windows of a batch: every window holds between 1 and 8 links,
    every window but the last holds exactly 8, and there are as many
    windows as it takes, the number of links divided by 8 and rounded
    up. *)
Theorem make_batches_windows (links : list string) :
  Forall (fun batch => (1 <= length batch <= 8)%nat) (make_batches links 0)
  /\ length (make_batches links 0) = ((length links + 7) / 8)%nat
  /\ (forall k batch,
        nth_error (make_batches links 0) k = Some batch ->
        (S k < length (make_batches links 0))%nat ->
        length batch = 8%nat).
Proof.
  destruct (make_batches_shape links 0) as (Hf & (Hlo & Hhi) & Hk).
  split; [exact Hf|]. split; [|exact Hk].
  rewrite Nat.sub_0_r in *.
  apply Nat.div_unique with (r := (length links + 7 - 8 * length (make_batches links 0))%nat); lia.
Qed.

(* ===================================================================== *)
(** ** Further properties: what is requested                              *)
(* ===================================================================== *)

Lemma probed_app (a b : list Effect) :
  probed (a ++ b) = (probed a ++ probed b)%list.
Proof.
  induction a as [|e a IH]; [reflexivity|].
  destruct e as [rq|ms]; cbn [app probed]; [destruct (rq_redirect rq)|];
    rewrite IH; reflexivity.
Qed.

Section RequestProperties.

Variable pf : Platform.

Lemma redirect_loop_probes_nothing (n : nat) :
  forall cur chain options w,
    probed (log (snd (redirect_loop pf n cur chain options w))) = probed (log w).
Proof.
  induction n as [|n IH]; intros cur chain options w; [reflexivity|].
  cbn [redirect_loop].
  assert (F : probed (log (snd (fetch {| rq_url := cur; rq_redirect := Manual;
                                         rq_timeout := JNum 5000; rq_agent := None |} w)))
              = probed (log w)).
  { unfold fetch. cbn [snd log]. rewrite probed_app. simpl. apply app_nil_r. }
  destruct options; try reflexivity; unfold bind, ret;
    (destruct (fetch _ w) as [reply w1]; cbn [snd] in F;
     destruct (outcome reply) as [resp|err]; [|exact F];
     destruct ((r_status resp >=? 300) && (r_status resp <? 400)); [|exact F];
     destruct (headers_get resp "location") as [|loc]; [exact F|];
     destruct (truthy_str loc); [|exact F];
     destruct (url_resolve pf loc cur) as [next|]; [|exact F];
     rewrite IH; exact F).
Qed.

Lemma getRedirectChain_effects (url : string) (options : json) (w : World) :
  probed (log (snd (getRedirectChain pf url options w))) = probed (log w)
  /\ (reqs w <= reqs (snd (getRedirectChain pf url options w)) <= reqs w + 5)%nat.
Proof.
  unfold getRedirectChain, bind, ret.
  pose proof (redirect_loop_probes_nothing 5 url [] options w) as H.
  pose proof (redirect_loop_bounds pf 5 url [] options w) as B. cbv zeta in B.
  destruct B as [_ B].
  destruct (redirect_loop pf 5 url [] options w) as [[chain [e|]] w']; split; assumption.
Qed.

(** The effects of one probe that gets as far as its request: that
    request, then at most five of the tracer. *)
Lemma checkSingleLink_effects (url : string) (options : json) (w : World) :
  early_throw options = None ->
  probed (log (snd (checkSingleLink pf url options w)))
  = (probed (log w) ++ [url])%list
  /\ (reqs w < reqs (snd (checkSingleLink pf url options w)) <= reqs w + 6)%nat.
Proof.
  intros Ho. rewrite (@checkSingleLink_requests pf url options w Ho).
  unfold request_and_classify, bind, now, ret.
  assert (F : probed (log (snd (fetch (fetchOptions url options) w)))
              = (probed (log w) ++ [url])%list
              /\ reqs (snd (fetch (fetchOptions url options) w)) = S (reqs w)).
  { unfold fetch. cbn [snd log reqs]. rewrite probed_app. split; reflexivity. }
  destruct (fetch (fetchOptions url options) w) as [reply w1]. cbn [snd] in F.
  destruct F as [Fp Fr].
  destruct (outcome reply) as [resp|err]; [|cbn [snd]; split; [exact Fp|lia]].
  destruct (classify _ _) as [st msg].
  match goal with
  | |- context [if ?c then getRedirectChain _ _ _ else _] => destruct c
  end; [|cbn [snd]; split; [exact Fp|lia]].
  destruct (getRedirectChain_effects url options w1) as [Gp Gr].
  destruct (getRedirectChain pf url options w1) as [ch w2]. cbn [snd] in *.
  split; [congruence|lia].
Qed.

Lemma allSettled_effects (options : json) (batch : list string) :
  early_throw options = None ->
  forall w,
    probed (log (snd (allSettled (checkSingleLink pf) batch options w)))
    = (probed (log w) ++ batch)%list
    /\ (reqs (snd (allSettled (checkSingleLink pf) batch options w))
        <= reqs w + 6 * length batch)%nat.
Proof.
  intros Ho. induction batch as [|u rest IH]; intros w.
  - cbn [allSettled]. unfold ret. cbn [snd]. rewrite app_nil_r. split; [reflexivity|simpl; lia].
  - cbn [allSettled]. unfold bind, ret.
    destruct (@checkSingleLink_effects u options w Ho) as [Cp Cr].
    destruct (checkSingleLink pf u options w) as [s w1]. cbn [snd] in *.
    destruct (IH w1) as [Ap Ar].
    destruct (allSettled _ rest options w1) as [ss w2]. cbn [snd] in *.
    split; [rewrite Ap, Cp, <- app_assoc; reflexivity|simpl; lia].
Qed.

Lemma allSettled_rejected_effects (options : json) (err : JsError)
    (batch : list string) :
  early_throw options = Some err ->
  forall w, snd (allSettled (checkSingleLink pf) batch options w) = w.
Proof.
  intros Ho. induction batch as [|u rest IH]; intros w; [reflexivity|].
  cbn [allSettled]. unfold bind, ret. rewrite (@checkSingleLink_rejects pf u options w err Ho).
  specialize (IH w). destruct (allSettled _ rest options w) as [ss w2]. exact IH.
Qed.

Lemma sleep_effects (ms : Z) (w : World) :
  probed (log (snd (sleep ms w))) = probed (log w)
  /\ reqs (snd (sleep ms w)) = reqs w.
Proof.
  unfold sleep. cbn [snd log reqs]. rewrite probed_app. simpl.
  rewrite app_nil_r. split; reflexivity.
Qed.

Lemma run_batches_effects (options : json) (nbatches : nat)
    (pending : list (list string)) :
  forall results w,
    let w' := snd (run_batches (checkSingleLink pf) pending nbatches options results w) in
    probed (log w')
    = (probed (log w)
       ++ match early_throw options with Some _ => [] | None => concat pending end)%list
    /\ (reqs w' <= reqs w + 6 * length (concat pending))%nat.
Proof.
  induction pending as [|batch rest IH]; intros results w; cbv zeta.
  - cbn [run_batches concat]. unfold ret. cbn [snd].
    split; [destruct (early_throw options); rewrite app_nil_r; reflexivity|simpl; lia].
  - cbn [run_batches concat]. unfold bind, now.
    assert (A : probed (log (snd (allSettled (checkSingleLink pf) batch options w)))
                = (probed (log w)
                   ++ match early_throw options with Some _ => [] | None => batch end)%list
                /\ (reqs (snd (allSettled (checkSingleLink pf) batch options w))
                    <= reqs w + 6 * length batch)%nat).
    { destruct (early_throw options) as [e|] eqn:Ho.
      - rewrite (@allSettled_rejected_effects options e batch Ho w), app_nil_r.
        split; [reflexivity|lia].
      - exact (@allSettled_effects options batch Ho w). }
    destruct (allSettled _ batch options w) as [brs w1]. cbn [snd] in A.
    destruct A as [Ap Ar].
    assert (S : probed (log (snd ((if (1 <? nbatches)%nat then sleep 200 else ret tt) w1)))
                = probed (log w1)
                /\ reqs (snd ((if (1 <? nbatches)%nat then sleep 200 else ret tt) w1))
                   = reqs w1).
    { destruct (1 <? nbatches)%nat; [apply sleep_effects|split; reflexivity]. }
    destruct ((if (1 <? nbatches)%nat then sleep 200 else ret tt) w1) as [u w2].
    cbn [snd] in S. destruct S as [Sp Sr].
    match goal with
    | |- context [run_batches _ rest nbatches options ?rs w2] =>
        destruct (IH rs w2) as [Ip Ir]
    end.
    rewrite Ip, Sp, Ap, length_app. split; [|lia].
    destruct (early_throw options); rewrite <- ?app_assoc; reflexivity.
Qed.

Lemma scheduler_effects (links : list string) (options : json) (w : World) :
  probed (log (snd (processLinksWithConcurrency pf links options w)))
  = (probed (log w)
     ++ match early_throw options with Some _ => [] | None => links end)%list
  /\ (reqs (snd (processLinksWithConcurrency pf links options w))
      <= reqs w + 6 * length links)%nat.
Proof.
  unfold processLinksWithConcurrency, schedule.
  pose proof (run_batches_effects options (length (make_batches links 0))
                (make_batches links 0) [] w) as H.
  cbv zeta in H. rewrite make_batches_concat in H. exact H.
Qed.

(** X5. A run of the scheduler probes every link exactly once and in the
    order of the links, whatever the windows and whatever the tracer
    requests in between; with options on which the probe throws before
    its request ([null], or a [userAgent] that has no property key) it
    probes nothing. It issues at most six requests per link. *)
Theorem processLinksWithConcurrency_probes_each_link_once (links : list string)
    (options : json) (w : World) :
  probed (log (snd (processLinksWithConcurrency pf links options w)))
  = (probed (log w)
     ++ match early_throw options with Some _ => [] | None => links end)%list
  /\ (reqs (snd (processLinksWithConcurrency pf links options w))
      <= reqs w + 6 * length links)%nat.
Proof. exact (scheduler_effects links options w). Qed.

End RequestProperties.

(* ===================================================================== *)
(** ** Further properties: the tracer and the probe                       *)
(* ===================================================================== *)

Section TraceProperties.

Variable pf : Platform.

Lemma redirect_loop_linked (n : nat) :
  forall cur chain options w,
    exists more,
      fst (fst (redirect_loop pf n cur chain options w)) = (chain ++ more)%list
      /\ chain_linked pf cur more.
Proof.
  induction n as [|n IH]; intros cur chain options w.
  - exists []. cbn [redirect_loop]. unfold ret. cbn [fst]. rewrite app_nil_r.
    split; [reflexivity|exact I].
  - assert (Stop : forall (e : option JsError) (w' : World),
              exists more, fst (fst (chain, e, w')) = (chain ++ more)%list
                           /\ chain_linked pf cur more).
    { intros e w'. exists []. cbn [fst]. rewrite app_nil_r. split; [reflexivity|exact I]. }
    cbn [redirect_loop].
    destruct options; try apply Stop; unfold bind, ret;
      (destruct (fetch _ w) as [reply w1];
       destruct (outcome reply) as [resp|err]; [|apply Stop];
       destruct ((r_status resp >=? 300) && (r_status resp <? 400)) eqn:R; [|apply Stop];
       destruct (headers_get resp "location") as [|loc]; [apply Stop|];
       destruct (truthy_str loc) eqn:T; [|apply Stop];
       apply andb_prop in R; destruct R as [R1 R2];
       apply Z.geb_le in R1; apply Z.ltb_lt in R2;
       assert (Hloc : loc <> "")
         by (intros ->; discriminate);
       destruct (url_resolve pf loc cur) as [next|] eqn:U;
       [ match goal with
         | |- context [redirect_loop pf n ?c ?ch ?o ?w2] =>
             destruct (IH c ch o w2) as (more & Hm & Hl)
         end;
         exists (Hop.mk cur (r_status resp) loc :: more);
         split; [rewrite Hm, <- app_assoc; reflexivity|];
         cbn [chain_linked Hop.url Hop.status Hop.location];
         repeat split; try assumption; try lia;
         right; exists next; split; assumption
       | exists [Hop.mk cur (r_status resp) loc];
         split; [reflexivity|];
         cbn [chain_linked Hop.url Hop.status Hop.location];
         repeat split; try assumption; try lia; left; reflexivity ]).
Qed.

Lemma getRedirectChain_result (url : string) (options : json) (w : World) :
  fst (getRedirectChain pf url options w) = Null
  \/ exists chain,
       fst (getRedirectChain pf url options w) = Val chain
       /\ (1 <= length chain <= 5)%nat
       /\ chain_linked pf url chain.
Proof.
  rewrite getRedirectChain_drops_exception.
  destruct (redirect_loop_linked 5 url [] options w) as (more & Hm & Hl).
  pose proof (redirect_loop_bounds pf 5 url [] options w) as B.
  cbv zeta in B. destruct B as [(more' & Hm' & Hlen) _].
  rewrite Hm in Hm'. cbn [app] in Hm'. subst more'.
  rewrite Hm. cbn [app]. destruct more as [|h t]; cbn [chain_or_null].
  - left. reflexivity.
  - right. exists (h :: t). split; [reflexivity|]. split; [simpl in *; lia|exact Hl].
Qed.

(** X6. A chain the tracer returns starts at the URL it was given; each
    of its hops is a response with a status in [300,400) and a non-empty
    location; and each hop after the first starts at the absolute URL the
    platform makes of the previous hop's location and URL. *)
Theorem getRedirectChain_hops_linked (url : string) (options : json) (w : World)
    (chain : list Hop.t) :
  fst (getRedirectChain pf url options w) = Val chain ->
  chain_linked pf url chain.
Proof.
  intros E. destruct (getRedirectChain_result url options w) as [N|(c & Hc & _ & L)].
  - rewrite N in E. discriminate.
  - rewrite Hc in E. inversion E; subst c. exact L.
Qed.

(** X7. When nothing throws while the request is built, and the caller
    turned redirects off or the response came from the requested URL
    itself, the probe settles after its single request and records no
    chain. *)
Theorem checkSingleLink_untraced (url : string) (options : json) (w : World)
    (response : HttpResponse) :
  early_throw options = None ->
  outcome (net w (reqs w) (fetchOptions url options)) = Responded response ->
  prop options "followRedirects" = Some (JBool false) \/ r_url response = url ->
  exists value w',
    checkSingleLink pf url options w = (Fulfilled value, w')
    /\ Probe.redirectChain value = Some Null
    /\ reqs w' = S (reqs w)
    /\ probed (log w') = (probed (log w) ++ [url])%list.
Proof.
  intros Ho Hr Hc. rewrite (@checkSingleLink_requests pf url options w Ho).
  unfold request_and_classify, bind, now, fetch, ret. rewrite Hr.
  destruct (classify _ _) as [st msg].
  assert (C : not_false (prop options "followRedirects")
              && negb (String.eqb (r_url response) url) = false).
  { destruct Hc as [Hc|Hc]; [rewrite Hc; reflexivity|].
    rewrite Hc, String.eqb_refl. apply andb_false_r. }
  rewrite C. do 2 eexists. split; [reflexivity|].
  cbn [Probe.redirectChain reqs log]. rewrite probed_app.
  repeat split.
Qed.

(** X8. A chain in the result of a probe was traced with redirects left
    on, from the probed URL, and has between one and five linked hops. *)
Theorem checkSingleLink_chain (url : string) (options : json) (w w' : World)
    (value : Probe.t) (chain : list Hop.t) :
  checkSingleLink pf url options w = (Fulfilled value, w') ->
  Probe.redirectChain value = Some (Val chain) ->
  not_false (prop options "followRedirects") = true
  /\ (1 <= length chain <= 5)%nat
  /\ chain_linked pf url chain.
Proof.
  intros E Hc.
  destruct (early_throw options) as [e|] eqn:Ho;
    [rewrite (@checkSingleLink_rejects pf url options w e Ho) in E; discriminate|].
  rewrite (@checkSingleLink_requests pf url options w Ho) in E.
  unfold request_and_classify, bind, now, ret in E.
  destruct (fetch (fetchOptions url options) w) as [reply w1].
  destruct (outcome reply) as [resp|err].
  - destruct (classify _ _) as [st msg].
    destruct (not_false (prop options "followRedirects")) eqn:F; cbn [andb] in E.
    + destruct (negb (String.eqb (r_url resp) url)).
      * pose proof (getRedirectChain_result url options w1) as G.
        destruct (getRedirectChain pf url options w1) as [ch w2].
        cbn [fst] in G. inversion E; subst value. cbn [Probe.redirectChain] in Hc.
        inversion Hc; subst ch.
        destruct G as [G|(c & G & Hlen & L)]; [discriminate|].
        inversion G; subst c. auto.
      * inversion E; subst value. discriminate.
    + inversion E; subst value. discriminate.
  - inversion E; subst value. discriminate.
Qed.

(** X9. A probe that gets as far as its request and whose request fails
    settles at once, with no chain and no headers: the result is [broken], keeps the error's message under
    [error], and has the error's code as [statusCode], or ["ERROR"] when
    the error has none. Its message is "DNS Resolution Failed" for
    ENOTFOUND and "Connection Refused" for ECONNREFUSED; otherwise
    "Request Timeout" for ETIMEDOUT and for every [FetchError]; otherwise
    "SSL Certificate Expired" for CERT_HAS_EXPIRED; and "Connection
    Failed" for what is left. *)
Theorem checkSingleLink_failure_result (url : string) (options : json) (w : World)
    (err : JsError) :
  early_throw options = None ->
  outcome (net w (reqs w) (fetchOptions url options)) = Failed err ->
  exists value w',
    checkSingleLink pf url options w = (Fulfilled value, w')
    /\ reqs w' = S (reqs w)
    /\ Probe.url value = url
    /\ Probe.status value = broken
    /\ Probe.redirectChain value = Some Null
    /\ Probe.headers value = None
    /\ Probe.error value = Some (e_message err)
    /\ Probe.responseTime value = latency (net w (reqs w) (fetchOptions url options))
    /\ (forall c, e_code err = Some c -> c <> "" -> Probe.statusCode value = JStr c)
    /\ (e_code err = None \/ e_code err = Some "" -> Probe.statusCode value = JStr "ERROR")
    /\ (e_code err = Some "ENOTFOUND" -> Probe.message value = "DNS Resolution Failed")
    /\ (e_code err = Some "ECONNREFUSED" -> Probe.message value = "Connection Refused")
    /\ (e_code err <> Some "ENOTFOUND" -> e_code err <> Some "ECONNREFUSED" ->
        e_code err = Some "ETIMEDOUT" \/ e_name err = "FetchError" ->
        Probe.message value = "Request Timeout")
    /\ (e_name err <> "FetchError" -> e_code err = Some "CERT_HAS_EXPIRED" ->
        Probe.message value = "SSL Certificate Expired")
    /\ (e_name err <> "FetchError" ->
        e_code err <> Some "ENOTFOUND" -> e_code err <> Some "ECONNREFUSED" ->
        e_code err <> Some "ETIMEDOUT" -> e_code err <> Some "CERT_HAS_EXPIRED" ->
        Probe.message value = "Connection Failed").
Proof.
  intros Ho Hr. rewrite (@checkSingleLink_requests pf url options w Ho).
  unfold request_and_classify, bind, now, fetch, ret. rewrite Hr.
  do 2 eexists. split; [reflexivity|].
  cbn [reqs Probe.url Probe.status Probe.redirectChain Probe.headers Probe.error
       Probe.responseTime Probe.statusCode Probe.message clock].
  assert (Code : forall c, code_is err c = true <-> e_code err = Some c).
  { intros c. unfold code_is. destruct (e_code err) as [c'|].
    - rewrite String.eqb_eq. split; [intros ->; reflexivity|intros H; inversion H; reflexivity].
    - split; discriminate. }
  assert (NoCode : forall c, e_code err <> Some c -> code_is err c = false).
  { intros c H. destruct (code_is err c) eqn:E; [|reflexivity].
    apply Code in E. contradiction. }
  repeat split.
  - lia.
  - intros c Hc Hn. unfold failure_code. rewrite Hc.
    destruct (truthy_str c) eqn:T; [reflexivity|].
    unfold truthy_str in T. apply negb_false_iff, String.eqb_eq in T. contradiction.
  - intros [H|H]; unfold failure_code; rewrite H; reflexivity.
  - intros H. unfold failure_message. apply Code in H. rewrite H. reflexivity.
  - intros H. unfold failure_message.
    assert (N : code_is err "ENOTFOUND" = false)
      by (apply NoCode; rewrite H; discriminate).
    apply Code in H. rewrite N, H. reflexivity.
  - intros H1 H2 H3. unfold failure_message.
    rewrite (NoCode _ H1), (NoCode _ H2).
    destruct H3 as [H3|H3].
    + apply Code in H3. rewrite H3. reflexivity.
    + rewrite H3. change (String.eqb "FetchError" "FetchError") with true.
      rewrite orb_true_r. reflexivity.
  - intros Hn H. unfold failure_message.
    assert (N1 : code_is err "ENOTFOUND" = false)
      by (apply NoCode; rewrite H; discriminate).
    assert (N2 : code_is err "ECONNREFUSED" = false)
      by (apply NoCode; rewrite H; discriminate).
    assert (N3 : code_is err "ETIMEDOUT" = false)
      by (apply NoCode; rewrite H; discriminate).
    apply Code in H. apply String.eqb_neq in Hn.
    rewrite N1, N2, N3, Hn, H. reflexivity.
  - intros Hn H1 H2 H3 H4. unfold failure_message.
    apply String.eqb_neq in Hn.
    rewrite (NoCode _ H1), (NoCode _ H2), (NoCode _ H3), (NoCode _ H4), Hn.
    reflexivity.
Qed.

End TraceProperties.

(* ===================================================================== *)
(** ** Further properties: the summary                                    *)
(* ===================================================================== *)

Lemma bump_errors (status : Status) (s : Summary.t) :
  Summary.errors (bump status s) = Summary.errors s.
Proof. destruct status; reflexivity. Qed.

Lemma tally_sum_errors (results : list Probe.t) :
  forall (s : Summary.t) (t : Z),
    snd (tally results s t) = t + sum_response_time results
    /\ Summary.errors (fst (tally results s t))
       = (Summary.errors s ++ error_entries results)%list.
Proof.
  induction results as [|r rest IH]; intros s t.
  - cbn [tally sum_response_time error_entries fst snd]. rewrite app_nil_r.
    split; [lia|reflexivity].
  - cbn [tally sum_response_time error_entries]. cbv zeta.
    destruct (IH (push_error r (bump (Probe.status r) s)) (t + Probe.responseTime r))
      as [Hs He].
    rewrite Hs, He. split; [lia|].
    unfold push_error. destruct (Probe.error r) as [e|].
    + destruct (truthy_str e); cbn [Summary.errors]; rewrite bump_errors;
        [rewrite <- app_assoc|]; reflexivity.
    + rewrite bump_errors. reflexivity.
Qed.

Lemma generateSummary_fields (results : list Probe.t) :
  Summary.averageResponseTime (generateSummary results)
  = round_div (sum_response_time results) (length results)
  /\ Summary.errors (generateSummary results) = error_entries results.
Proof.
  unfold generateSummary.
  pose proof (tally_sum_errors results
                (Summary.mk (length results) (Num 0) (Num 0) (Num 0) (Num 0) (Num 0) [] None)
                0) as H.
  destruct (tally results _ 0) as [s' t']. cbn [fst snd Summary.errors app] in H.
  destruct H as [Ht He]. cbn [Summary.averageResponseTime Summary.errors].
  rewrite Ht, He. split; reflexivity.
Qed.

(** X10. The average of a summary, for response times that are not
    negative and add up to less than 2^52, the range in which the doubles
    of the source are exact: [NaN] for the empty list; for a list of
    [n > 0] results whose response times add up to [t], the integer [a]
    nearest to [t / n], the upper one on a tie:
    [2t - n < 2na <= 2t + n]. *)
Theorem generateSummary_average_rounds_mean (results : list Probe.t) :
  Forall (fun r => 0 <= Probe.responseTime r) results ->
  sum_response_time results < 2 ^ 52 ->
  match results with
  | [] => Summary.averageResponseTime (generateSummary results) = NaN
  | _ :: _ =>
      exists a,
        Summary.averageResponseTime (generateSummary results) = Num a
        /\ 0 <= a < 2 ^ 52
        /\ 2 * sum_response_time results - Z.of_nat (length results)
           < 2 * Z.of_nat (length results) * a
           <= 2 * sum_response_time results + Z.of_nat (length results)
  end.
Proof.
  intros Hpos Hsum.
  assert (Hnn : 0 <= sum_response_time results).
  { clear Hsum. induction Hpos as [|r rest Hr _ IH]; cbn [sum_response_time]; lia. }
  destruct (generateSummary_fields results) as [Ha _]. rewrite Ha.
  destruct results as [|r rest]; [reflexivity|].
  set (n := length (r :: rest)) in *. set (t := sum_response_time (r :: rest)) in *.
  assert (Hn : 0 < Z.of_nat n) by (unfold n; simpl; lia).
  unfold round_div. destruct n as [|m] eqn:En; [simpl in Hn; lia|].
  eexists. split; [reflexivity|].
  pose proof (Z.div_mod (2 * t + Z.of_nat (S m)) (2 * Z.of_nat (S m))) as D.
  pose proof (Z.mod_pos_bound (2 * t + Z.of_nat (S m)) (2 * Z.of_nat (S m))) as B.
  assert (P : 2 ^ 52 = 4503599627370496) by reflexivity. rewrite P in *.
  set (q := (2 * t + Z.of_nat (S m)) / (2 * Z.of_nat (S m))) in *.
  split; [|lia]. nia.
Qed.

(** X11. The [errors] of a summary are the results that carry a non-empty
    error text, each with its URL, in the order of the results. *)
Theorem generateSummary_errors_listed (results : list Probe.t) :
  Summary.errors (generateSummary results) = error_entries results
  /\ forall url text,
       In (url, text) (Summary.errors (generateSummary results))
       <-> exists r, In r results /\ Probe.url r = url
                     /\ Probe.error r = Some text /\ text <> "".
Proof.
  destruct (generateSummary_fields results) as [_ He]. rewrite He.
  split; [reflexivity|]. intros url text.
  induction results as [|r rest IH]; cbn [error_entries].
  - split; [intros []|intros (r & [] & _)].
  - assert (Keep : Probe.url r = url /\ Probe.error r = Some text /\ text <> ""
                   \/ In (url, text) (error_entries rest)
                   <-> exists r0, In r0 (r :: rest) /\ Probe.url r0 = url
                                  /\ Probe.error r0 = Some text /\ text <> "").
    { rewrite IH by (destruct (generateSummary_fields rest); assumption).
      split.
      - intros [H|(r0 & Hin & H)]; [exists r; split; [left; reflexivity|exact H]|].
        exists r0. split; [right; exact Hin|exact H].
      - intros (r0 & [Hin|Hin] & H); [subst r0; left; exact H|].
        right. exists r0. split; assumption. }
    rewrite <- Keep. clear Keep IH.
    destruct (Probe.error r) as [e|] eqn:E.
    + destruct (truthy_str e) eqn:T.
      * cbn [In]. split.
        -- intros [H|H]; [|right; exact H]. inversion H; subst.
           left. repeat split. intros ->. discriminate.
        -- intros [(Hu & He' & _)|H]; [|right; exact H].
           inversion He'; subst. left. reflexivity.
      * split; [intros H; right; exact H|].
        intros [(_ & He' & Hn)|H]; [|exact H].
        inversion He'; subst. unfold truthy_str in T.
        apply negb_false_iff, String.eqb_eq in T. contradiction.
    + split; [intros H; right; exact H|].
      intros [(_ & He' & _)|H]; [discriminate|exact H].
Qed.

(* ===================================================================== *)
(** ** Further properties: the handler                                    *)
(* ===================================================================== *)

Section HandlerRuns.

Variable pf : Platform.

(** Every run of the handler either refuses without touching the world,
    or schedules the links that survived. *)
Lemma handler_cases (event : LambdaEvent) (w : World) :
  (refusal (fst (handler pf event w)) /\ snd (handler pf event w) = w)
  \/ exists request links,
       httpMethod event = "POST"
       /\ body event = Parsed request
       /\ prop request "links" = Some (JArr links)
       /\ (0 < length links <= 50)%nat
       /\ filter_links pf (map (sanitizeUrl pf) links) <> []
       /\ handler pf event w
          = report pf (filter_links pf (map (sanitizeUrl pf) links))
                   (match prop request "options" with
                    | Some o => o
                    | None => JObj []
                    end) w.
Proof.
  destruct event as [method content]. unfold handler. cbn [httpMethod body].
  destruct (String.eqb method "OPTIONS") eqn:Mo.
  { left. split; [reflexivity|reflexivity]. }
  destruct (String.eqb method "POST") eqn:Mp; cbn [negb].
  2:{ left. split; [cbn; auto|reflexivity]. }
  apply String.eqb_eq in Mp. subst method.
  destruct content as [err|request].
  { left. unfold internal_error. split; [cbn; auto|reflexivity]. }
  assert (Bad : refusal (fst (ret {| statusCode := 400;
                                     responseBody := ErrorBody "Invalid links array" None |} w))
                /\ snd (ret {| statusCode := 400;
                               responseBody := ErrorBody "Invalid links array" None |} w) = w).
  { split; [cbn; auto|reflexivity]. }
  destruct request as [|b|z|s|items|props];
    try (left; unfold internal_error; split; [cbn; auto|reflexivity]);
    cbn [prop]; try (left; exact Bad).
  destruct (assoc "links" props) as [[| | | |links|]|] eqn:L; try (left; exact Bad).
  destruct (length links =? 0)%nat eqn:E0; [left; exact Bad|].
  destruct (RATE_LIMITS.maxLinksPerRequest <? length links)%nat eqn:E50.
  { left. split; [cbn; auto|reflexivity]. }
  destruct (length (filter_links pf (map (sanitizeUrl pf) links)) =? 0)%nat eqn:Ev.
  { left. split; [cbn; auto|reflexivity]. }
  right. exists (JObj props), links.
  apply Nat.eqb_neq in E0, Ev. apply Nat.ltb_ge in E50.
  unfold RATE_LIMITS.maxLinksPerRequest in E50.
  split; [reflexivity|]. split; [reflexivity|]. split; [exact L|].
  split; [lia|]. split.
  - intros H. rewrite H in Ev. apply Ev. reflexivity.
  - unfold report, bind, now, ret. cbn [prop].
    destruct (processLinksWithConcurrency pf _ _ w) as [results w1]. reflexivity.
Qed.

Lemma processLinksWithConcurrency_urls (links : list string) (options : json)
    (w : World) :
  map Probe.url (fst (processLinksWithConcurrency pf links options w)) = links.
Proof.
  unfold processLinksWithConcurrency.
  pose proof (schedule_slots (checkSingleLink pf) links options w) as H.
  induction H as [|u r us rs (w1 & stamp & Hr) _ IH]; [reflexivity|].
  cbn [map]. rewrite IH. f_equal. subst r.
  destruct (early_throw options) as [e|] eqn:Ho.
  - rewrite (@checkSingleLink_rejects pf u options w1 e Ho). reflexivity.
  - destruct (@checkSingleLink_settles pf u options w1 Ho) as (value & w' & E & Hu).
    rewrite E. exact Hu.
Qed.

(** X12. A POST whose body carries between 1 and 50 links of which at
    least one survives is answered 200 with one result per surviving link,
    in their order, each under the sanitised URL; [processed] and the
    summary's [total] are the number of surviving links, whatever the
    probes did. *)
Theorem handler_report_on_valid_batch (event : LambdaEvent) (w : World)
    (request : json) (links : list json) :
  httpMethod event = "POST" ->
  body event = Parsed request ->
  prop request "links" = Some (JArr links) ->
  (0 < length links <= 50)%nat ->
  filter_links pf (map (sanitizeUrl pf) links) <> [] ->
  exists results summary stamp w',
    handler pf event w
    = ({| statusCode := 200;
          responseBody :=
            ReportBody results summary
                       (length (filter_links pf (map (sanitizeUrl pf) links))) stamp |},
       w')
    /\ map Probe.url results = filter_links pf (map (sanitizeUrl pf) links)
    /\ Summary.total summary = length (filter_links pf (map (sanitizeUrl pf) links)).
Proof.
  intros Hm Hb Hl Hlen Hv.
  destruct (handler_cases event w) as [[R W]|(rq & ls & _ & Hb' & Hl' & _ & _ & E)].
  - exfalso. destruct event as [method content]. cbn [httpMethod body] in *.
    subst method content. unfold handler in R.
    cbn [httpMethod body String.eqb Ascii.eqb Bool.eqb negb andb] in R.
    assert (E0 : (length links =? 0)%nat = false) by (apply Nat.eqb_neq; lia).
    assert (E50 : (RATE_LIMITS.maxLinksPerRequest <? length links)%nat = false)
      by (apply Nat.ltb_ge; unfold RATE_LIMITS.maxLinksPerRequest; lia).
    assert (Ev : (length (filter_links pf (map (sanitizeUrl pf) links)) =? 0)%nat = false).
    { apply Nat.eqb_neq. intros H. apply Hv. apply length_zero_iff_nil. exact H. }
    destruct request as [|b|z|s|items|props]; try discriminate.
    cbn [prop] in *. rewrite Hl, E0, E50, Ev in R.
    unfold bind, now, ret in R.
    destruct (processLinksWithConcurrency pf _ _ w) as [results w1]. exact R.
  - rewrite Hb in Hb'. inversion Hb'; subst rq. rewrite Hl in Hl'.
    inversion Hl'; subst ls. rewrite E. unfold report.
    pose proof (processLinksWithConcurrency_urls
                  (filter_links pf (map (sanitizeUrl pf) links))
                  (match prop request "options" with Some o => o | None => JObj [] end)
                  w) as U.
    destruct (processLinksWithConcurrency pf _ _ w) as [results w1]. cbn [fst] in U.
    assert (Len : length results = length (filter_links pf (map (sanitizeUrl pf) links))).
    { rewrite <- (length_map Probe.url results), U. reflexivity. }
    exists results, (generateSummary results), (clock w1), w1.
    rewrite Len. split; [reflexivity|]. split; [exact U|].
    destruct (generateSummary_counters results) as [T _]. rewrite T. exact Len.
Qed.

(** X13. What every answer of the handler satisfies. An answer without
    results is an empty 200 or an error with code 400, 405, 429 or 500, and
    leaves the world as it was. An answer with results has code 200,
    between 1 and 50 results, [processed] and [total] equal to their
    number, and an average response time that is a number. *)
Theorem handler_answer_invariant (event : LambdaEvent) (w : World) :
  match responseBody (fst (handler pf event w)) with
  | EmptyBody =>
      statusCode (fst (handler pf event w)) = 200 /\ snd (handler pf event w) = w
  | ErrorBody _ _ =>
      In (statusCode (fst (handler pf event w))) [400; 405; 429; 500]
      /\ snd (handler pf event w) = w
  | ReportBody results summary processed _ =>
      statusCode (fst (handler pf event w)) = 200
      /\ (1 <= length results <= 50)%nat
      /\ processed = length results
      /\ Summary.total summary = length results
      /\ exists a, Summary.averageResponseTime summary = Num a
  end.
Proof.
  destruct (handler_cases event w) as [[R W]|(rq & ls & _ & _ & _ & Hlen & Hv & E)].
  - unfold refusal in R.
    destruct (responseBody (fst (handler pf event w))); [split; assumption..|contradiction].
  - rewrite E. unfold report.
    pose proof (processLinksWithConcurrency_urls
                  (filter_links pf (map (sanitizeUrl pf) ls))
                  (match prop rq "options" with Some o => o | None => JObj [] end)
                  w) as U.
    destruct (filter_links_valid pf (map (sanitizeUrl pf) ls)) as [_ Hle].
    rewrite length_map in Hle.
    destruct (processLinksWithConcurrency pf _ _ w) as [results w1].
    cbn [fst responseBody statusCode] in *.
    assert (Len : length results = length (filter_links pf (map (sanitizeUrl pf) ls)))
      by (rewrite <- (length_map Probe.url results), U; reflexivity).
    assert (Pos : (0 < length (filter_links pf (map (sanitizeUrl pf) ls)))%nat).
    { destruct (filter_links pf (map (sanitizeUrl pf) ls)); [contradiction|simpl; lia]. }
    split; [reflexivity|]. split; [lia|]. split; [reflexivity|].
    destruct (generateSummary_counters results) as [T _].
    split; [exact T|].
    destruct (generateSummary_fields results) as [A _]. rewrite A.
    unfold round_div. destruct (length results); [lia|]. eexists. reflexivity.
Qed.

(** X14. Whatever the request, the links the handler probes are at most
    50, each was accepted by [validateUrl], and the requests it issues,
    the tracer's included, are at most 300; it takes at most 7 pacing
    delays. *)
Theorem handler_probes_validated_links_only (event : LambdaEvent) (w : World) :
  exists probes,
    probed (log (snd (handler pf event w))) = (probed (log w) ++ probes)%list
    /\ Forall (fun url => validateUrl pf url = true) probes
    /\ (length probes <= 50)%nat
    /\ (reqs (snd (handler pf event w)) <= reqs w + 300)%nat
    /\ (delays (log (snd (handler pf event w))) <= delays (log w) + 7)%nat.
Proof.
  destruct (handler_cases event w) as [[R W]|(rq & ls & _ & _ & _ & Hlen & Hv & E)].
  - exists []. rewrite W, app_nil_r. repeat split; [constructor|simpl; lia|lia|lia].
  - rewrite E. unfold report.
    set (valid := filter_links pf (map (sanitizeUrl pf) ls)) in *.
    set (options := match prop rq "options" with Some o => o | None => JObj [] end).
    destruct (scheduler_effects pf valid options w)
      as [Hp Hr].
    pose proof (pacing_delay_count pf valid options w) as Hd. cbv zeta in Hd.
    destruct (filter_links_valid pf (map (sanitizeUrl pf) ls)) as [Hacc Hle].
    rewrite length_map in Hle. fold valid in Hacc, Hle.
    destruct (make_batches_shape valid 0) as (_ & (Hlo & _) & _).
    rewrite Nat.sub_0_r in Hlo.
    destruct (processLinksWithConcurrency pf valid options w) as [results w1].
    cbn [snd] in *.
    exists (match early_throw options with Some _ => [] | None => valid end).
    split; [exact Hp|]. split; [|split; [|split]].
    + destruct (early_throw options); [constructor|].
      eapply Forall_impl; [|exact Hacc]. intros u [Hu _]. exact Hu.
    + destruct (early_throw options); simpl; lia.
    + lia.
    + rewrite Hd. destruct (1 <? length (make_batches valid 0))%nat; lia.
Qed.

End HandlerRuns.

(* ===================================================================== *)
(** ** Further properties: the page's guard                               *)
(* ===================================================================== *)

Lemma trimStart_head (s : string) :
  forall c r, trimStart s = String c r -> is_js_space c = false.
Proof.
  induction s as [|d s IH]; intros c r H; [discriminate|].
  cbn [trimStart] in H. destruct (is_js_space d) eqn:E.
  - exact (IH c r H).
  - inversion H; subst. exact E.
Qed.

Lemma trimEnd_head (s : string) (c : ascii) (r : string) :
  trimEnd s = String c r -> exists r0, s = String c r0.
Proof.
  destruct s as [|d s]; [discriminate|]. cbn [trimEnd].
  destruct (trimEnd s); [destruct (is_js_space d); [discriminate|]|];
    intros H; inversion H; subst; eexists; reflexivity.
Qed.

Lemma trim_head (s : string) (c : ascii) (r : string) :
  trim s = String c r -> is_js_space c = false.
Proof.
  unfold trim. intros H. destruct (trimEnd_head _ H) as (r0 & H0).
  exact (trimStart_head _ H0).
Qed.

Lemma nonblank_head (c : ascii) (r : string) :
  is_js_space c = false -> Frontend.nonblank (String c r) = true.
Proof.
  intros Hc. unfold Frontend.nonblank, trim. cbn [trimStart]. rewrite Hc.
  cbn [trimEnd]. destruct (trimEnd r); [rewrite Hc|]; reflexivity.
Qed.

Lemma split_lines_head (c : ascii) (r : string) :
  is_js_space c = false ->
  exists line lines, Frontend.split_lines (String c r) = String c line :: lines.
Proof.
  intros Hc. cbn [Frontend.split_lines].
  destruct (Ascii.eqb c "010") eqn:E.
  - apply Ascii.eqb_eq in E. subst c. discriminate.
  - destruct (Frontend.split_lines r) as [|line lines]; do 2 eexists; reflexivity.
Qed.

(** A text that is not blank has a line that is not blank. *)
Lemma nonblank_lines_of_trimmed (value : string) :
  trim value <> "" ->
  filter Frontend.nonblank (Frontend.split_lines (trim value)) <> [].
Proof.
  intros H. destruct (trim value) as [|c r] eqn:E; [contradiction|].
  pose proof (trim_head _ E) as Hc.
  destruct (@split_lines_head c r Hc) as (line & lines & S). rewrite S.
  cbn [filter]. rewrite (@nonblank_head c line Hc). discriminate.
Qed.

Lemma checkLinks_guard_bounds (value : string) (links : list string) :
  Frontend.checkLinks false value = Frontend.Submit links ->
  (1 <= length links <= 50)%nat.
Proof.
  unfold Frontend.checkLinks.
  destruct (negb (truthy_str (trim value))); [discriminate|].
  destruct (length (filter Frontend.nonblank (Frontend.split_lines (trim value))) =? 0)%nat
    eqn:E0; [discriminate|].
  destruct (50 <? length (filter Frontend.nonblank (Frontend.split_lines (trim value))))%nat
    eqn:E50; [discriminate|].
  intros H. inversion H; subst links.
  apply Nat.eqb_neq in E0. apply Nat.ltb_ge in E50. lia.
Qed.

(** X15. How the guard of [checkLinks] ends. It returns at once exactly
    when a check is running. Otherwise it shows "Please enter some links
    to check!" for a blank text, the 50-link message for a text of more
    than 50 non-blank lines, and else submits the non-blank lines, between
    1 and 50 of them; the message "Please enter valid links!" is never
    shown. *)
Theorem checkLinks_guard_outcomes (isChecking : bool) (value : string) :
  let lines := filter Frontend.nonblank (Frontend.split_lines (trim value)) in
  match Frontend.checkLinks isChecking value with
  | Frontend.Busy => isChecking = true
  | Frontend.Message text =>
      isChecking = false
      /\ text <> "Please enter valid links!"
      /\ ((text = "Please enter some links to check!" /\ trim value = "")
          \/ (text = "Free version limited to 50 links. Upgrade to Pro for unlimited checking!"
              /\ (50 < length lines)%nat))
  | Frontend.Submit links =>
      isChecking = false
      /\ links = lines
      /\ (1 <= length links <= 50)%nat
      /\ Forall (fun link => trim link <> "") links
  end.
Proof.
  cbv zeta. unfold Frontend.checkLinks.
  destruct isChecking; [reflexivity|].
  destruct (truthy_str (trim value)) eqn:T; cbn [negb].
  2:{ unfold truthy_str in T. apply negb_false_iff, String.eqb_eq in T.
      split; [reflexivity|]. split; [discriminate|]. left. split; [reflexivity|exact T]. }
  assert (Hne : trim value <> "").
  { intros H. rewrite H in T. discriminate. }
  pose proof (nonblank_lines_of_trimmed value Hne) as Hl.
  destruct (length (filter Frontend.nonblank (Frontend.split_lines (trim value))) =? 0)%nat
    eqn:E0.
  { apply Nat.eqb_eq, length_zero_iff_nil in E0. contradiction. }
  apply Nat.eqb_neq in E0.
  destruct (50 <? length (filter Frontend.nonblank (Frontend.split_lines (trim value))))%nat
    eqn:E50.
  - apply Nat.ltb_lt in E50. split; [reflexivity|]. split; [discriminate|].
    right. split; [reflexivity|exact E50].
  - apply Nat.ltb_ge in E50. split; [reflexivity|]. split; [reflexivity|].
    split; [lia|].
    apply Forall_forall. intros link Hin. apply filter_In in Hin.
    destruct Hin as [_ Hn]. unfold Frontend.nonblank, truthy_str in Hn.
    intros H. rewrite H in Hn. discriminate.
Qed.

Section PageAndHandler.

Variable pf : Platform.

(** X16. What the page submits passes the handler's checks on the array:
    the POST is never answered "Invalid links array" and never turned away
    by the 50-link limit. The answer is the report of the surviving links,
    or, when none survives, the 400 "No valid URLs provided" with the world
    untouched. *)
Theorem checkLinks_submission_accepted (value : string) (links : list string)
    (options : json) (w : World) :
  Frontend.checkLinks false value = Frontend.Submit links ->
  let event := {| httpMethod := "POST";
                  body := Parsed (Frontend.request_body links options) |} in
  let valid := filter_links pf (map (sanitizeUrl pf) (map JStr links)) in
  (valid <> [] /\ handler pf event w = report pf valid options w)
  \/ (valid = []
      /\ handler pf event w
         = ({| statusCode := 400;
               responseBody := ErrorBody "No valid URLs provided" None |}, w)).
Proof.
  intros H. pose proof (checkLinks_guard_bounds value H) as Hlen. cbv zeta.
  unfold handler, Frontend.request_body.
  cbn [httpMethod body String.eqb Ascii.eqb Bool.eqb negb andb prop assoc].
  rewrite length_map.
  assert (E0 : (length links =? 0)%nat = false) by (apply Nat.eqb_neq; lia).
  assert (E50 : (RATE_LIMITS.maxLinksPerRequest <? length links)%nat = false)
    by (apply Nat.ltb_ge; unfold RATE_LIMITS.maxLinksPerRequest; lia).
  rewrite E0, E50.
  destruct (filter_links pf (map (sanitizeUrl pf) (map JStr links))) as [|u rest] eqn:V.
  - right. split; reflexivity.
  - left. split; [discriminate|]. cbn [length Nat.eqb].
    unfold report, bind, now, ret.
    destruct (processLinksWithConcurrency pf (u :: rest) options w) as [results w1].
    reflexivity.
Qed.

End PageAndHandler.

(* ===================================================================== *)
(** ** Further properties: counters and pacing                            *)
(* ===================================================================== *)

(** X17. Each of the four counters of a summary is the number of results
    with that status, and [total] is the number of results; when no result
    has status [error], the counters add up to [total]. *)
Theorem generateSummary_counts_by_status (results : list Probe.t) :
  Summary.total (generateSummary results) = length results
  /\ Summary.healthy (generateSummary results)
     = Num (Z.of_nat (count_status healthy results))
  /\ Summary.broken (generateSummary results)
     = Num (Z.of_nat (count_status broken results))
  /\ Summary.warning (generateSummary results)
     = Num (Z.of_nat (count_status warning results))
  /\ Summary.redirect (generateSummary results)
     = Num (Z.of_nat (count_status redirect results))
  /\ (count_status error results = O ->
      Summary.error (generateSummary results) = None
      /\ counts_sum (generateSummary results) = Num (Z.of_nat (length results))).
Proof.
  destruct (generateSummary_counters results) as (T & H & B & W & R & E).
  split; [exact T|]. split; [exact H|]. split; [exact B|]. split; [exact W|].
  split; [exact R|]. intros He. split.
  - rewrite E. unfold error_after. rewrite He. reflexivity.
  - rewrite (generateSummary_counts_without_error results He), T. reflexivity.
Qed.

(** X18. The pacing of a run: when the links fit one window the scheduler
    takes no delay; otherwise it takes one delay of its own after every
    window, as many delays as windows. *)
Theorem processLinksWithConcurrency_pacing (pf : Platform) (links : list string)
    (options : json) (w : World) :
  delays (log (snd (processLinksWithConcurrency pf links options w)))
  = (delays (log w)
     + if (length links <=? 8)%nat then 0 else (length links + 7) / 8)%nat.
Proof.
  pose proof (pacing_delay_count pf links options w) as H. cbv zeta in H.
  rewrite H. f_equal.
  destruct (make_batches_shape links 0) as (_ & (Hlo & Hhi) & _).
  rewrite Nat.sub_0_r in *.
  assert (N : length (make_batches links 0) = ((length links + 7) / 8)%nat).
  { apply Nat.div_unique
      with (r := (length links + 7 - 8 * length (make_batches links 0))%nat); lia. }
  destruct (Nat.leb_spec (length links) 8) as [L|L];
    destruct (Nat.ltb_spec 1 (length (make_batches links 0))) as [M|M];
    try lia.
Qed.

(* ===================================================================== *)
(** ** Instances of the further properties                                *)
(* ===================================================================== *)

(** A link without a scheme is parsed behind [https://]. *)
Lemma sanitizeUrl_output_shape_witness :
  exists raw input u,
    JStr "  example.com " = JStr raw
    /\ ((has_http_prefix (trim raw) = true /\ input = trim raw)
        \/ (has_http_prefix (trim raw) = false /\ input = "https://" ++ trim raw))
    /\ has_http_prefix input = true
    /\ url_parse Sample.platform input = Some u
    /\ "https://example.com/" = href u.
Proof.
  apply (@sanitizeUrl_output_shape Sample.platform (JStr "  example.com ")
           "https://example.com/").
  reflexivity.
Defined.

(** A public-looking host with a marker inside, in capitals. *)
Lemma validateUrl_rejects_marker_anywhere_witness :
  validateUrl Sample.platform "https://My.LOCALHOST.example/" = false.
Proof.
  apply (@validateUrl_rejects_marker_anywhere Sample.platform
           "https://My.LOCALHOST.example/"
           (mkURL "https://My.LOCALHOST.example/" "https:" "My.LOCALHOST.example")
           "My." "LOCALHOST" ".example" "localhost").
  - reflexivity.
  - reflexivity.
  - reflexivity.
  - simpl. auto.
Defined.

(** The five hops of a redirect loop are linked. *)
Lemma getRedirectChain_hops_linked_witness :
  chain_linked Sample.platform "https://loop.example.com/"
    (repeat (Hop.mk "https://loop.example.com/" 302 "https://loop.example.com/") 5).
Proof.
  apply (@getRedirectChain_hops_linked Sample.platform "https://loop.example.com/"
           (JObj []) (Sample.world Sample.net_loop)).
  vm_compute. reflexivity.
Defined.

(** A response from the requested URL itself: one request, no chain. *)
Lemma checkSingleLink_untraced_witness :
  exists value w',
    checkSingleLink Sample.platform "https://example.com/" (JObj [])
                    (Sample.world Sample.net_ok) = (Fulfilled value, w')
    /\ Probe.redirectChain value = Some Null
    /\ reqs w' = 1%nat
    /\ probed (log w') = ["https://example.com/"].
Proof.
  apply (@checkSingleLink_untraced Sample.platform "https://example.com/" (JObj [])
           (Sample.world Sample.net_ok) (Sample.ok_response "https://example.com/")).
  - reflexivity.
  - reflexivity.
  - right. reflexivity.
Defined.

(** The chain of the link that moved. *)
Lemma checkSingleLink_chain_witness :
  not_false (prop (JObj []) "followRedirects") = true
  /\ (1 <= length [Hop.mk "https://old.example.com/" 301 "https://new.example.com/"]
      <= 5)%nat
  /\ chain_linked Sample.platform "https://old.example.com/"
       [Hop.mk "https://old.example.com/" 301 "https://new.example.com/"].
Proof.
  eapply (@checkSingleLink_chain Sample.platform "https://old.example.com/" (JObj [])
            (Sample.world Sample.net_moved)).
  - vm_compute. reflexivity.
  - reflexivity.
Defined.

(** A failed DNS lookup. *)
Lemma checkSingleLink_failure_result_witness :
  exists value w',
    checkSingleLink Sample.platform "https://nowhere.example/" (JObj [])
                    (Sample.world (Sample.net_fail Sample.dns_failure))
    = (Fulfilled value, w')
    /\ Probe.status value = broken
    /\ Probe.statusCode value = JStr "ENOTFOUND"
    /\ Probe.message value = "DNS Resolution Failed".
Proof.
  destruct (@checkSingleLink_failure_result Sample.platform "https://nowhere.example/"
              (JObj []) (Sample.world (Sample.net_fail Sample.dns_failure))
              Sample.dns_failure)
    as (value & w' & E & _ & _ & Hs & _ & _ & _ & _ & Hc & _ & Hm & _).
  - reflexivity.
  - reflexivity.
  - exists value, w'. split; [exact E|]. split; [exact Hs|].
    split; [apply Hc; [reflexivity|discriminate]|apply Hm; reflexivity].
Defined.

(** One link that survives and one that does not. *)
Lemma handler_report_on_valid_batch_witness :
  exists results summary stamp w',
    handler Sample.platform
      (Sample.post (Sample.request [JStr "example.com"; JStr "http://10.0.0.5/"] (JObj [])))
      (Sample.world Sample.net_ok)
    = ({| statusCode := 200; responseBody := ReportBody results summary 1 stamp |}, w')
    /\ map Probe.url results = ["https://example.com/"]
    /\ Summary.total summary = 1%nat.
Proof.
  apply (@handler_report_on_valid_batch Sample.platform
           (Sample.post (Sample.request [JStr "example.com"; JStr "http://10.0.0.5/"]
                                        (JObj [])))
           (Sample.world Sample.net_ok)
           (Sample.request [JStr "example.com"; JStr "http://10.0.0.5/"] (JObj []))
           [JStr "example.com"; JStr "http://10.0.0.5/"]).
  - reflexivity.
  - reflexivity.
  - reflexivity.
  - simpl. lia.
  - vm_compute. discriminate.
Defined.

(** Two links typed with a blank line between them. *)
Lemma checkLinks_submission_accepted_witness :
  Frontend.checkLinks false Sample.typed_text = Frontend.Submit ["example.com"; "  http://10.0.0.5/"]
  /\ handler Sample.platform
       {| httpMethod := "POST";
          body := Parsed (Frontend.request_body ["example.com"; "  http://10.0.0.5/"]
                                                (JObj [])) |}
       (Sample.world Sample.net_ok)
     = report Sample.platform ["https://example.com/"] (JObj [])
              (Sample.world Sample.net_ok).
Proof.
  split; [reflexivity|].
  destruct (@checkLinks_submission_accepted Sample.platform Sample.typed_text
              ["example.com"; "  http://10.0.0.5/"] (JObj [])
              (Sample.world Sample.net_ok) eq_refl) as [[_ E]|[V _]].
  - exact E.
  - vm_compute in V. discriminate.
Defined.

(** Two results of 120ms and 121ms average to 121. *)
Lemma generateSummary_average_rounds_mean_witness :
  exists a,
    Summary.averageResponseTime
      (generateSummary [Sample.timed 120; Sample.timed 121]) = Num a
    /\ 0 <= a < 2 ^ 52
    /\ 2 * sum_response_time [Sample.timed 120; Sample.timed 121]
       - Z.of_nat (length [Sample.timed 120; Sample.timed 121])
       < 2 * Z.of_nat (length [Sample.timed 120; Sample.timed 121]) * a
       <= 2 * sum_response_time [Sample.timed 120; Sample.timed 121]
          + Z.of_nat (length [Sample.timed 120; Sample.timed 121]).
Proof.
  apply (@generateSummary_average_rounds_mean [Sample.timed 120; Sample.timed 121]).
  - repeat constructor; simpl; lia.
  - vm_compute. reflexivity.
Defined.

(* ===================================================================== *)
(** ** Further properties: how a probe settles                            *)
(* ===================================================================== *)

Lemma early_throw_spec (options : json) :
  match early_throw options with
  | Some err =>
      (options = JNull \/ getUserAgent_throws (prop options "userAgent") = true)
      /\ e_name err = "TypeError"
  | None =>
      options <> JNull /\ getUserAgent_throws (prop options "userAgent") = false
  end.
Proof.
  unfold early_throw.
  destruct options as [|b|z|s|items|props];
    [split; [left; reflexivity|reflexivity]|..];
    (destruct (getUserAgent_throws _) eqn:G;
     [split; [right; reflexivity|reflexivity]|split; [discriminate|reflexivity]]).
Qed.

(** X19. How a probe settles. It rejects only before its request, when
    [options] is [null] or [options.userAgent] has no property key, and
    then it requests nothing and leaves the world as it was. In every
    other case it fulfils, whatever the network does, with a result for
    the probed URL, after requesting that URL. *)
Theorem checkSingleLink_settlement (pf : Platform) (url : string) (options : json)
    (w : World) :
  match fst (checkSingleLink pf url options w) with
  | Rejected err =>
      (options = JNull \/ getUserAgent_throws (prop options "userAgent") = true)
      /\ e_name err = "TypeError"
      /\ snd (checkSingleLink pf url options w) = w
  | Fulfilled value =>
      options <> JNull
      /\ getUserAgent_throws (prop options "userAgent") = false
      /\ Probe.url value = url
      /\ probed (log (snd (checkSingleLink pf url options w)))
         = (probed (log w) ++ [url])%list
  end.
Proof.
  pose proof (early_throw_spec options) as S.
  destruct (early_throw options) as [e|] eqn:Ho.
  - rewrite (@checkSingleLink_rejects pf url options w e Ho). cbn [fst snd].
    destruct S as [S1 S2]. split; [exact S1|]. split; [exact S2|reflexivity].
  - destruct (@checkSingleLink_settles pf url options w Ho) as (value & w' & E & Hu).
    destruct (@checkSingleLink_effects pf url options w Ho) as [Hp _].
    rewrite E in *. cbn [fst snd] in *.
    destruct S as [S1 S2]. split; [exact S1|]. split; [exact S2|].
    split; [exact Hu|exact Hp].
Qed.

(** A batch whose options carry a [userAgent] without a property key:
    the probe rejects before its request, the answer is a report of one
    result of status [error], and nothing was requested. *)
Example scenario_keyless_agent :
  early_throw Sample.keyless_agent = Some primitiveError
  /\ exists results summary stamp w',
       handler Sample.platform
         (Sample.post (Sample.request [JStr "example.com"] Sample.keyless_agent))
         (Sample.world Sample.net_ok)
       = ({| statusCode := 200;
             responseBody := ReportBody results summary 1 stamp |}, w')
       /\ map Probe.status results = [error]
       /\ map Probe.url results = ["https://example.com/"]
       /\ reqs w' = 0%nat.
Proof.
  split; [reflexivity|].
  do 4 eexists. split; [vm_compute; reflexivity|]. repeat split.
Qed.
